(** * personal_blog: the request handlers of [main.py], embedded and verified

    The blog is a Flask application: three SQLAlchemy tables ([User],
    [BlogPost], [Comment]), a cookie session managed by Flask-Login, four
    WTForms forms and ten routes.  The handlers are translated one by one
    into a small state-and-exception monad over the store, the client
    session and the unit of work of the ORM session. *)

From Stdlib Require Import List String Ascii Bool Arith NArith Lia DecimalString.
Import ListNotations.
Open Scope string_scope.
Open Scope list_scope.
Open Scope nat_scope.

Set Implicit Arguments.

(** ** Tables (main.py, lines 36-69) *)

(** A [db.String] column that is never declared [nullable=False] could hold
    NULL; every row the handlers write takes its strings from a validated,
    submitted form, so the string columns are modelled as strings.  The two
    foreign keys of a comment and the one of a post are filled from Python
    objects that can be [None], and stay optional.

    The store is the one the configuration falls back to, a SQLite file:
    the declared lengths of the string columns are not enforced, the two
    [unique=True] columns are, and a table is kept in insertion order. *)

Module User.
Record t := make
  { id : nat;
    email : string;
    password : string;
    name : string }.
End User.

Module BlogPost.
Record t := make
  { id : nat;
    author_id : option nat;
    title : string;
    subtitle : string;
    date : string;
    body : string;
    img_url : string }.
End BlogPost.

Module Comment.
Record t := make
  { id : nat;
    text : string;
    author_id : option nat;
    post_id : option nat }.
End Comment.

Record Store := mkStore
  { users : list User.t;
    blog_posts : list BlogPost.t;
    comments : list Comment.t }.

Definition empty_store : Store := mkStore [] [] [].

(** ** Queries *)

(** [Model.query.get(pk)] *)
Definition User_query_get (s : Store) (pk : nat) : option User.t :=
  find (fun u => User.id u =? pk) (users s).

Definition BlogPost_query_get (s : Store) (pk : nat) : option BlogPost.t :=
  find (fun p => BlogPost.id p =? pk) (blog_posts s).

(** [User.query.filter_by(email=e).first()].  A form that was not submitted
    has [None] as field data; the filter is then [email IS NULL], which no
    row satisfies. *)
Definition User_query_filter_by_email (s : Store) (e : option string)
  : option User.t :=
  match e with
  | Some e => find (fun u => String.eqb (User.email u) e) (users s)
  | None => None
  end.

(** [BlogPost.query.all()] *)
Definition BlogPost_query_all (s : Store) : list BlogPost.t := blog_posts s.

(** ** The unit of work *)

(** The key an INTEGER PRIMARY KEY column receives on insert: one more than
    the largest key in the table. *)
Definition next_id (ids : list nat) : nat := S (fold_right Nat.max 0 ids).

Inductive PostAttr := attr_title | attr_subtitle | attr_img_url | attr_body.

(** What [db.session] holds between [add] / [delete] / an attribute
    assignment on a loaded row and the next [commit]. *)
Inductive Op :=
| AddUser (u : User.t)
| AddPost (p : BlogPost.t)
| AddComment (c : Comment.t)
| DeletePost (pk : nat)
| SetPostAttr (pk : nat) (a : PostAttr) (v : string).

Definition set_attr (a : PostAttr) (v : string) (p : BlogPost.t) : BlogPost.t :=
  match a with
  | attr_title =>
      BlogPost.make (BlogPost.id p) (BlogPost.author_id p) v
        (BlogPost.subtitle p) (BlogPost.date p) (BlogPost.body p)
        (BlogPost.img_url p)
  | attr_subtitle =>
      BlogPost.make (BlogPost.id p) (BlogPost.author_id p) (BlogPost.title p)
        v (BlogPost.date p) (BlogPost.body p) (BlogPost.img_url p)
  | attr_img_url =>
      BlogPost.make (BlogPost.id p) (BlogPost.author_id p) (BlogPost.title p)
        (BlogPost.subtitle p) (BlogPost.date p) (BlogPost.body p) v
  | attr_body =>
      BlogPost.make (BlogPost.id p) (BlogPost.author_id p) (BlogPost.title p)
        (BlogPost.subtitle p) (BlogPost.date p) v (BlogPost.img_url p)
  end.

Definition update_post (pk : nat) (f : BlogPost.t -> BlogPost.t)
  (ps : list BlogPost.t) : list BlogPost.t :=
  map (fun p => if BlogPost.id p =? pk then f p else p) ps.

(** [unique=True] on [users.email] and on [blog_posts.title]. *)
Definition email_taken (s : Store) (e : string) : bool :=
  existsb (fun u => String.eqb (User.email u) e) (users s).

Definition title_taken_by_other (s : Store) (pk : nat) (t : string) : bool :=
  existsb (fun p => negb (BlogPost.id p =? pk) && String.eqb (BlogPost.title p) t)
    (blog_posts s).

Definition title_taken (s : Store) (t : string) : bool :=
  existsb (fun p => String.eqb (BlogPost.title p) t) (blog_posts s).

(** The relationship [BlogPost.comments] declares no delete cascade: when a
    post is deleted the ORM sets the [post_id] of its comments to NULL. *)
Definition orphan (pk : nat) (c : Comment.t) : Comment.t :=
  match Comment.post_id c with
  | Some q =>
      if q =? pk
      then Comment.make (Comment.id c) (Comment.text c) (Comment.author_id c) None
      else c
  | None => c
  end.

(** One flushed statement; [None] is a constraint violation. *)
Definition apply_op (s : Store) (o : Op) : option Store :=
  match o with
  | AddUser u =>
      if email_taken s (User.email u) then None
      else Some (mkStore (users s ++ [u]) (blog_posts s) (comments s))
  | AddPost p =>
      if title_taken s (BlogPost.title p) then None
      else Some (mkStore (users s) (blog_posts s ++ [p]) (comments s))
  | AddComment c =>
      Some (mkStore (users s) (blog_posts s) (comments s ++ [c]))
  | DeletePost pk =>
      Some (mkStore (users s)
              (filter (fun p => negb (BlogPost.id p =? pk)) (blog_posts s))
              (map (orphan pk) (comments s)))
  | SetPostAttr pk a v =>
      match a with
      | attr_title =>
          if title_taken_by_other s pk v then None
          else Some (mkStore (users s) (update_post pk (set_attr a v) (blog_posts s))
                       (comments s))
      | _ => Some (mkStore (users s) (update_post pk (set_attr a v) (blog_posts s))
                     (comments s))
      end
  end.

Fixpoint flush (s : Store) (ops : list Op) : option Store :=
  match ops with
  | [] => Some s
  | o :: ops' =>
      match apply_op s o with
      | Some s' => flush s' ops'
      | None => None
      end
  end.

(** ** The world a request runs in *)

Inductive Exception :=
| UnmappedInstanceError   (* db.session.delete(None) *)
| AttributeError          (* attribute access on None *)
| TypeError               (* None where a string is required *)
| IntegrityError          (* a unique constraint failed at commit *)
| OverflowError.          (* an integer too large for a SQLite INTEGER *)

(** What the handler bodies ask of their collaborators, in order. *)
Inductive Event :=
| FormValidate (form : string)
| UserQueryFilterBy (e : option string)
| BlogPostQueryGet (pk : nat)
| BlogPostQueryAll
| SessionCommit
| LoginUser (pk : nat)
| LogoutUser.

Record World := mkWorld
  { db : Store;                       (* committed rows *)
    session_user_id : option nat;     (* Flask-Login's key in the cookie session *)
    flashes : list string;            (* messages queued by [flash] *)
    pending : list Op;                (* the unit of work of this request *)
    trace : list Event }.

Inductive Outcome (A : Type) :=
| Ok (a : A)
| Raise (e : Exception).
Arguments Raise {A} e.

Definition M (A : Type) : Type := World -> Outcome A * World.

Definition ret {A} (a : A) : M A := fun w => (Ok a, w).

Definition bind {A B} (m : M A) (k : A -> M B) : M B :=
  fun w =>
    match m w with
    | (Ok a, w') => k a w'
    | (Raise e, w') => (Raise e, w')
    end.

Definition raise {A} (e : Exception) : M A := fun w => (Raise e, w).

Declare Scope handler_scope.
Delimit Scope handler_scope with handler.
Notation "x <- m ;; k" := (bind m (fun x => k))
  (at level 100, m at next level, right associativity) : handler_scope.
Notation "m ;; k" := (bind m (fun _ => k))
  (at level 100, right associativity) : handler_scope.
Open Scope handler_scope.

Definition get_db : M Store := fun w => (Ok (db w), w).

Definition emit (e : Event) : M unit :=
  fun w => (Ok tt, mkWorld (db w) (session_user_id w) (flashes w) (pending w)
                     (trace w ++ [e])).

Definition stage (o : Op) : M unit :=
  fun w => (Ok tt, mkWorld (db w) (session_user_id w) (flashes w)
                     (pending w ++ [o]) (trace w)).

(** [flash(msg)] *)
Definition flash (msg : string) : M unit :=
  fun w => (Ok tt, mkWorld (db w) (session_user_id w) (flashes w ++ [msg])
                     (pending w) (trace w)).

(** [db.session.commit()]: the staged statements are flushed in order; when
    one violates a constraint the transaction is rolled back and the error
    propagates. *)
Definition db_session_commit : M unit :=
  fun w =>
    let tr := trace w ++ [SessionCommit] in
    match flush (db w) (pending w) with
    | Some s => (Ok tt, mkWorld s (session_user_id w) (flashes w) [] tr)
    | None =>
        (Raise IntegrityError,
         mkWorld (db w) (session_user_id w) (flashes w) [] tr)
    end.

(** ** Forms (forms.py is not part of the sources) *)

(** The four form classes are imported from [forms.py]; [main.py] shows
    their field names only.  Their validators are taken as an interface. *)

Module RegisterForm.
Record t := make { email : string; password : string; name : string }.
End RegisterForm.

Module LoginForm.
Record t := make { email : string; password : string }.
End LoginForm.

Module CommentForm.
Record t := make { body : string }.
End CommentForm.

Module CreatePostForm.
Record t := make
  { title : string; subtitle : string; img_url : string; body : string }.
End CreatePostForm.

(** The field validators a form class declares. *)
Class FlaskForm (F : Type) := { validate : F -> bool }.

Inductive Method := GET | POST.

(** A request as a handler sees it: the method, the posted fields and the
    outcome of the CSRF token check of the form layer. *)
Record Request (F : Type) := mkRequest
  { method : Method;
    posted : F;
    csrf_ok : bool }.

(** A form object: [Form()] binds the posted fields when the request is a
    submission and the keyword defaults (if any) otherwise. *)
Record Form (F : Type) := mkForm
  { form_class : string;
    is_submitted : bool;
    token_ok : bool;
    data : option F }.

Definition new_form {F} (cls : string) (req : Request F) (defaults : option F)
  : Form F :=
  match method req with
  | POST => mkForm cls true (csrf_ok req) (Some (posted req))
  | GET => mkForm cls false (csrf_ok req) defaults
  end.

(** [form.<field>.data] *)
Definition field {F} (proj : F -> string) (f : Form F) : option string :=
  option_map proj (data f).

(** [form.validate_on_submit()]: [is_submitted() and validate()].  The
    result is [Some d] where Python returns [True]; [d] is the submitted
    data the branch goes on to read through [form.<field>.data]. *)
Definition validate_on_submit {F} `{FlaskForm F} (f : Form F) : M (option F) :=
  emit (FormValidate (form_class f)) ;;
  ret (if is_submitted f
       then match data f with
            | Some d => if token_ok f && validate d then Some d else None
            | None => None
            end
       else None).

(** [form.validate_on_submit] without the call: a bound method object,
    which is truthy whatever the form holds. *)
Definition validate_on_submit_method {F} (f : Form F) : bool := true.

(** ** Responses *)

Inductive Endpoint :=
| ep_get_all_posts
| ep_login
| ep_show_post (post_id : nat).

Inductive FormView :=
| RegisterFormView (f : Form RegisterForm.t)
| LoginFormView (f : Form LoginForm.t)
| CommentFormView (f : Form CommentForm.t)
| CreatePostFormView (f : Form CreatePostForm.t).

Inductive Value :=
| VUrl (u : string)
| VPosts (ps : list BlogPost.t)
| VPost (p : option BlogPost.t)
| VForm (f : FormView).

Inductive Response :=
| Redirect (location : Endpoint)
| Page (template : string) (context : list (string * Value))
| Abort (status : nat).

Definition url_for (e : Endpoint) : Endpoint := e.
Definition url_for_static (filename : string) : string :=
  String.append "/static/" filename.
Definition redirect (location : Endpoint) : Response := Redirect location.
Definition render_template (template : string) (context : list (string * Value))
  : Response := Page template context.

(** ** Flask-Login *)

(** [load_user] (main.py, lines 81-83) *)
Definition load_user (s : Store) (user_id : nat) : option User.t :=
  User_query_get s user_id.

(** [current_user]: the row the user loader finds for the key in the
    session; [None] is the anonymous user. *)
Definition identity (w : World) : option User.t :=
  match session_user_id w with
  | Some i => load_user (db w) i
  | None => None
  end.

Definition current_user : M (option User.t) := fun w => (Ok (identity w), w).

Definition is_authenticated (cu : option User.t) : bool :=
  match cu with Some _ => true | None => false end.

Definition login_user (u : User.t) : M unit :=
  fun w => (Ok tt, mkWorld (db w) (Some (User.id u)) (flashes w) (pending w)
                     (trace w ++ [LoginUser (User.id u)])).

Definition logout_user : M unit :=
  fun w => (Ok tt, mkWorld (db w) None (flashes w) (pending w)
                     (trace w ++ [LogoutUser])).

(** [@login_required]: no [login_view] is configured, so an anonymous
    caller gets the 401 of [LoginManager.unauthorized]. *)
Definition login_required {A} (f : A -> M Response) : A -> M Response :=
  fun a =>
    cu <- current_user ;;
    if is_authenticated cu then f a else ret (Abort 401).

(** ** The environment of a request *)

Record Date := mkDate { year : nat; month : nat; day : nat }.

Definition month_name (m : nat) : string :=
  nth (m - 1)
    ["January"; "February"; "March"; "April"; "May"; "June"; "July";
     "August"; "September"; "October"; "November"; "December"] "".

Definition decimal (n : nat) : string := NilZero.string_of_uint (Nat.to_uint n).

Definition two_digits (n : nat) : string :=
  if n <? 10 then String.append "0" (decimal n) else decimal n.

(** [d.strftime("%B %d, %Y")] *)
Definition strftime_B_d_Y (d : Date) : string :=
  String.append (month_name (month d))
    (String.append " "
       (String.append (two_digits (day d))
          (String.append ", " (decimal (year d))))).

Record Env := mkEnv
  { today : Date;          (* date.today() *)
    urandom : string }.    (* the characters the salt generator draws *)

(** ** Store access from a handler *)

(** [User.query.filter_by(email=e).first()] *)
Definition User_query_filter_by_first (e : option string) : M (option User.t) :=
  emit (UserQueryFilterBy e) ;;
  s <- get_db ;;
  ret (User_query_filter_by_email s e).

(** The keys a SQLite INTEGER column can hold are below 2^63. *)
Definition fits_integer (pk : nat) : bool := (N.of_nat pk <? 2 ^ 63)%N.
Arguments fits_integer : simpl never.

(** [BlogPost.query.get(post_id)].  The route converter accepts any string
    of digits, and the key is bound as a SQLite INTEGER: one of 2^63 or
    more does not fit, and the driver raises OverflowError instead of
    answering that there is no such row.  No row can be stored under such
    a key, so a lookup that finds a row is never such a binding. *)
Definition BlogPost_query_get_ (post_id : nat) : M (option BlogPost.t) :=
  emit (BlogPostQueryGet post_id) ;;
  s <- get_db ;;
  match BlogPost_query_get s post_id with
  | Some post => ret (Some post)
  | None => if fits_integer post_id then ret None else raise OverflowError
  end.

(** [BlogPost.query.all()] *)
Definition BlogPost_query_all_ : M (list BlogPost.t) :=
  emit BlogPostQueryAll ;;
  s <- get_db ;;
  ret (BlogPost_query_all s).

(** The constructors build the row the flush will insert.  The primary
    key is the one the table hands out next: a request constructs at most
    one row and commits it before anything else is inserted. *)
Definition new_User (email password name : string) : M User.t :=
  s <- get_db ;;
  ret (User.make (next_id (map User.id (users s))) email password name).

Definition new_BlogPost (title subtitle body img_url : string)
  (author : option User.t) (date : string) : M BlogPost.t :=
  s <- get_db ;;
  ret (BlogPost.make (next_id (map BlogPost.id (blog_posts s)))
         (option_map User.id author) title subtitle date body img_url).

Definition new_Comment (text : string) (comment_author : option User.t)
  (parent_post : option BlogPost.t) : M Comment.t :=
  s <- get_db ;;
  ret (Comment.make (next_id (map Comment.id (comments s))) text
         (option_map User.id comment_author)
         (option_map BlogPost.id parent_post)).

(** [db.session.add(row)] *)
Definition db_session_add (o : Op) : M unit := stage o.

(** [db.session.delete(post)]: [None] is not a mapped instance. *)
Definition db_session_delete (post : option BlogPost.t) : M unit :=
  match post with
  | Some p => stage (DeletePost (BlogPost.id p))
  | None => raise UnmappedInstanceError
  end.

(** [post.<attr> = v] on a row loaded in the session *)
Definition setattr (post : BlogPost.t) (a : PostAttr) (v : string) : M unit :=
  stage (SetPostAttr (BlogPost.id post) a v).

(** ** The guard (main.py, lines 72-78) *)

Definition admin_only {A} (f : A -> M Response) : A -> M Response :=
  fun args =>
    cu <- current_user ;;
    if negb (is_authenticated cu)
       || match cu with Some u => negb (User.id u =? 1) | None => true end
    then ret (redirect (url_for ep_get_all_posts))
    else f args.

(** ** Route handlers (main.py, lines 86-219) *)

Section Handlers.

Context {RegisterForm_validators : FlaskForm RegisterForm.t}
        {LoginForm_validators : FlaskForm LoginForm.t}
        {CommentForm_validators : FlaskForm CommentForm.t}
        {CreatePostForm_validators : FlaskForm CreatePostForm.t}.

(** [werkzeug.security]: the hasher, given the characters its salt
    generator draws, and the verifier. *)
Variable generate_password_hash :
  forall (password method : string) (salt_length : nat) (rand : string), string.
Variable check_password_hash : forall (pwhash password : string), bool.

Variable env : Env.

Definition get_all_posts (_ : unit) : M Response :=
  let background_img_url := url_for_static "img/index_background_image.png" in
  posts <- BlogPost_query_all_ ;;
  ret (render_template "index.html"
         [("all_posts", VPosts posts); ("bg_img_url", VUrl background_img_url)]).

Definition register (req : Request RegisterForm.t) : M Response :=
  let background_image_url := url_for_static "img/register-bg-img.jpg" in
  let register_form := new_form "RegisterForm" req None in
  v <- validate_on_submit register_form ;;
  match v with
  | Some d =>
      existing <- User_query_filter_by_first (Some (RegisterForm.email d)) ;;
      match existing with
      | Some _ =>
          flash "You've already sign up with that email, login instead" ;;
          ret (redirect (url_for ep_login))
      | None =>
          let hashed_user_password :=
            generate_password_hash (RegisterForm.password d) "pbkdf2:sha256" 8
              (urandom env) in
          new_user <- new_User (RegisterForm.email d) hashed_user_password
                        (RegisterForm.name d) ;;
          db_session_add (AddUser new_user) ;;
          db_session_commit ;;
          login_user new_user ;;
          ret (redirect (url_for ep_get_all_posts))
      end
  | None =>
      ret (render_template "register.html"
             [("form", VForm (RegisterFormView register_form));
              ("bg_img_url", VUrl background_image_url)])
  end.

Definition login (req : Request LoginForm.t) : M Response :=
  let background_img_url := url_for_static "img/login_bg_img.jpg" in
  let login_form := new_form "LoginForm" req None in
  let page :=
    render_template "login.html"
      [("form", VForm (LoginFormView login_form));
       ("bg_img_url", VUrl background_img_url)] in
  if validate_on_submit_method login_form then
    user <- User_query_filter_by_first (field LoginForm.email login_form) ;;
    match user with
    | Some u =>
        match field LoginForm.password login_form with
        | Some submitted_password =>
            if check_password_hash (User.password u) submitted_password
            then login_user u ;; ret (redirect (url_for ep_get_all_posts))
            else flash "Incorrect password" ;; ret page
        | None => raise TypeError
        end
    | None => ret page
    end
  else ret page.

Definition logout : unit -> M Response :=
  login_required
    (fun _ => logout_user ;; ret (redirect (url_for ep_get_all_posts))).

Definition show_post (post_id : nat) (req : Request CommentForm.t)
  : M Response :=
  requested_post <- BlogPost_query_get_ post_id ;;
  let comment_form := new_form "CommentForm" req None in
  let page :=
    render_template "post.html"
      [("post", VPost requested_post);
       ("form", VForm (CommentFormView comment_form))] in
  v <- validate_on_submit comment_form ;;
  match v with
  | Some d =>
      cu <- current_user ;;
      if is_authenticated cu then
        new_comment <- new_Comment (CommentForm.body d) cu requested_post ;;
        db_session_add (AddComment new_comment) ;;
        db_session_commit ;;
        ret page
      else
        flash "You need to login to comment" ;;
        ret (redirect (url_for ep_login))
  | None => ret page
  end.

Definition about (_ : unit) : M Response :=
  let bg_image_url := url_for_static "img/about_bg_img.jpg" in
  ret (render_template "about.html" [("bg_img_url", VUrl bg_image_url)]).

Definition contact : unit -> M Response :=
  admin_only (fun _ => ret (render_template "contact.html" [])).

Definition add_new_post : Request CreatePostForm.t -> M Response :=
  admin_only (fun req =>
    let form := new_form "CreatePostForm" req None in
    v <- validate_on_submit form ;;
    match v with
    | Some d =>
        cu <- current_user ;;
        new_post <- new_BlogPost (CreatePostForm.title d)
                      (CreatePostForm.subtitle d) (CreatePostForm.body d)
                      (CreatePostForm.img_url d) cu
                      (strftime_B_d_Y (today env)) ;;
        db_session_add (AddPost new_post) ;;
        db_session_commit ;;
        ret (redirect (url_for ep_get_all_posts))
    | None =>
        ret (render_template "make-post.html"
               [("form", VForm (CreatePostFormView form))])
    end).

Definition edit_post : nat * Request CreatePostForm.t -> M Response :=
  admin_only (fun '(post_id, req) =>
    found <- BlogPost_query_get_ post_id ;;
    match found with
    | None => raise AttributeError
    | Some post =>
        let edit_form :=
          new_form "CreatePostForm" req
            (Some (CreatePostForm.make (BlogPost.title post)
                     (BlogPost.subtitle post) (BlogPost.img_url post)
                     (BlogPost.body post))) in
        v <- validate_on_submit edit_form ;;
        match v with
        | Some d =>
            setattr post attr_title (CreatePostForm.title d) ;;
            setattr post attr_subtitle (CreatePostForm.subtitle d) ;;
            setattr post attr_img_url (CreatePostForm.img_url d) ;;
            setattr post attr_body (CreatePostForm.body d) ;;
            db_session_commit ;;
            ret (redirect (url_for (ep_show_post (BlogPost.id post))))
        | None =>
            ret (render_template "make-post.html"
                   [("form", VForm (CreatePostFormView edit_form))])
        end
    end).

Definition delete_post : nat -> M Response :=
  admin_only (fun post_id =>
    post_to_delete <- BlogPost_query_get_ post_id ;;
    db_session_delete post_to_delete ;;
    db_session_commit ;;
    ret (redirect (url_for ep_get_all_posts))).

(** ** Requests *)

Inductive Route :=
| route_index
| route_register (req : Request RegisterForm.t)
| route_login (req : Request LoginForm.t)
| route_logout
| route_post (post_id : nat) (req : Request CommentForm.t)
| route_about
| route_contact
| route_new_post (req : Request CreatePostForm.t)
| route_edit_post (post_id : nat) (req : Request CreatePostForm.t)
| route_delete (post_id : nat).

Definition dispatch (r : Route) : M Response :=
  match r with
  | route_index => get_all_posts tt
  | route_register req => register req
  | route_login req => login req
  | route_logout => logout tt
  | route_post post_id req => show_post post_id req
  | route_about => about tt
  | route_contact => contact tt
  | route_new_post req => add_new_post req
  | route_edit_post post_id req => edit_post (post_id, req)
  | route_delete post_id => delete_post post_id
  end.

End Handlers.

(** A request starts with an empty unit of work; what is staged and not
    committed when the handler returns or raises is dropped with the
    request.  [Raise] out of [run] is an unhandled exception: the client
    gets a 500. *)
Definition request_context (w : World) : World :=
  mkWorld (db w) (session_user_id w) (flashes w) [] [].

Definition teardown (w : World) : World :=
  mkWorld (db w) (session_user_id w) (flashes w) [] (trace w).

Definition run {A} (m : M A) (w : World) : Outcome A * World :=
  let (o, w') := m (request_context w) in (o, teardown w').

Definition initial_world : World := mkWorld empty_store None [] [] [].

(** ** Start-up (main.py, lines 17-32) *)

(** [os.environ]: the first binding of a name is the one in force. *)
Definition Environ := list (string * string).

Fixpoint environ_get (e : Environ) (key : string) : option string :=
  match e with
  | [] => None
  | (k, v) :: e' => if String.eqb k key then Some v else environ_get e' key
  end.

Definition environ_get_default (e : Environ) (key default : string) : string :=
  match environ_get e key with
  | Some v => v
  | None => default
  end.

Record Config := mkConfig
  { SECRET_KEY : option string;
    SQLALCHEMY_DATABASE_URI : string;
    SQLALCHEMY_TRACK_MODIFICATIONS : bool }.

(** How the module-level code can end: the application object is
    configured, or the process stops with a diagnostic. *)
Inductive Startup :=
| Started (config : Config)
| Fatal (diagnostic : string).

Definition startup (environ : Environ) : Startup :=
  Started
    (mkConfig (environ_get environ "SECRET_KEY")
       (environ_get_default environ "DATABASE_URL1" "sqlite:///blog.db")
       false).

(** ** Sample collaborators *)

(** Validators in the usual style of such forms: every field is required.
    They and the toy hasher below instantiate the interfaces where a
    statement is evaluated on concrete data. *)
Definition nonempty (s : string) : bool := negb (String.eqb s "").

Definition required_RegisterForm : FlaskForm RegisterForm.t :=
  {| validate := fun d =>
       nonempty (RegisterForm.email d) && nonempty (RegisterForm.password d)
       && nonempty (RegisterForm.name d) |}.

Definition required_LoginForm : FlaskForm LoginForm.t :=
  {| validate := fun d =>
       nonempty (LoginForm.email d) && nonempty (LoginForm.password d) |}.

Definition required_CommentForm : FlaskForm CommentForm.t :=
  {| validate := fun d => nonempty (CommentForm.body d) |}.

Definition required_CreatePostForm : FlaskForm CreatePostForm.t :=
  {| validate := fun d =>
       nonempty (CreatePostForm.title d) && nonempty (CreatePostForm.subtitle d)
       && nonempty (CreatePostForm.img_url d) && nonempty (CreatePostForm.body d) |}.

Definition toy_generate_password_hash (password method : string)
  (salt_length : nat) (rand : string) : string :=
  String.append method
    (String.append "$" (String.append (substring 0 salt_length rand)
       (String.append "$" password))).

Definition toy_check_password_hash (pwhash password : string) : bool :=
  match index 0 "$" pwhash with
  | Some i =>
      let rest := substring (S i) (String.length pwhash) pwhash in
      match index 0 "$" rest with
      | Some j =>
          String.eqb (substring (S j) (String.length rest) rest) password
      | None => false
      end
  | None => false
  end.

Definition sample_env : Env := mkEnv (mkDate 2021 7 4) "saltsalt".

Definition alice : User.t :=
  User.make 1 "a@x.com" "pbkdf2:sha256$saltsalt$pw" "Alice".
Definition bob : User.t :=
  User.make 2 "b@x.com" "pbkdf2:sha256$saltsalt$hunter2" "Bob".

Definition post1 : BlogPost.t :=
  BlogPost.make 1 (Some 1) "T1" "S1" "July 04, 2021" "B1" "http://x/i.png".
Definition post2 : BlogPost.t :=
  BlogPost.make 2 (Some 1) "T2" "S2" "July 05, 2021" "B2" "http://x/j.png".

Definition sample_store : Store :=
  mkStore [alice; bob] [post1; post2] [Comment.make 1 "nice post" (Some 2) (Some 1)].

Definition world_of (s : Store) (who : option nat) : World :=
  mkWorld s who [] [] [].

(** The least post ID the route converter accepts and the store cannot
    bind. *)
Definition oversized_post_id : nat := N.to_nat (2 ^ 63).

(** ** Vocabulary of the statements *)

(** The caller is anonymous, or is a user whose primary key is not 1. *)
Definition not_admin (w : World) : Prop :=
  identity w = None \/ exists u, identity w = Some u /\ User.id u <> 1.

Definition is_admin (w : World) : Prop :=
  exists u, identity w = Some u /\ User.id u = 1.

(** The routes decorated with [@admin_only]. *)
Definition admin_guarded (r : Route) : bool :=
  match r with
  | route_contact | route_new_post _ | route_edit_post _ _ | route_delete _ => true
  | _ => false
  end.

(** A submission that passes the whole validation of its form. *)
Definition valid_submission {F} `{FlaskForm F} (req : Request F) : Prop :=
  method req = POST /\ csrf_ok req = true /\ validate (posted req) = true.

(** The world a request leaves behind when it changed nothing but the
    flash queue, with the trace of what the handler asked. *)
Definition untouched (w : World) (msgs : list string) (tr : list Event) : World :=
  mkWorld (db w) (session_user_id w) (flashes w ++ msgs) [] tr.

(** The four editable fields of a post replaced, the rest kept. *)
Definition edited (d : CreatePostForm.t) (p : BlogPost.t) : BlogPost.t :=
  BlogPost.make (BlogPost.id p) (BlogPost.author_id p) (CreatePostForm.title d)
    (CreatePostForm.subtitle d) (BlogPost.date p) (CreatePostForm.body d)
    (CreatePostForm.img_url d).



Section Reachable.

Context {RegisterForm_validators : FlaskForm RegisterForm.t}
        {LoginForm_validators : FlaskForm LoginForm.t}
        {CommentForm_validators : FlaskForm CommentForm.t}
        {CreatePostForm_validators : FlaskForm CreatePostForm.t}.
Variable generate_password_hash : string -> string -> nat -> string -> string.
Variable check_password_hash : string -> string -> bool.

(** The worlds the application can be in: the empty store with nobody
    logged in, and whatever a request to some route leaves behind. *)
Inductive reachable : World -> Prop :=
| reachable_initial : reachable initial_world
| reachable_request (w : World) (env : Env) (r : Route) :
    reachable w ->
    reachable
      (snd (run (dispatch generate_password_hash check_password_hash env r) w)).

End Reachable.



(** ** Vocabulary of the further properties *)

(** Nothing that outlives the request differs: same rows, same session,
    same flash queue. *)
Definition same_state (w w' : World) : Prop :=
  db w' = db w
  /\ session_user_id w' = session_user_id w
  /\ flashes w' = flashes w.

Definition is_get {F} (req : Request F) : bool :=
  match method req with GET => true | POST => false end.

(** The requests that only read: every GET except the two routes that act
    on a GET, [/logout] and [/delete/<id>]. *)
Definition read_only_request (r : Route) : bool :=
  match r with
  | route_index | route_about | route_contact => true
  | route_register req => is_get req
  | route_login req => is_get req
  | route_post _ req => is_get req
  | route_new_post req => is_get req
  | route_edit_post _ req => is_get req
  | route_logout | route_delete _ => false
  end.

(** No primary key occurs twice in its table. *)
Definition unique_keys (s : Store) : Prop :=
  NoDup (map User.id (users s))
  /\ NoDup (map BlogPost.id (blog_posts s))
  /\ NoDup (map Comment.id (comments s)).

(** The two columns declared [unique=True] hold no value twice. *)
Definition unique_columns (s : Store) : Prop :=
  NoDup (map User.email (users s))
  /\ NoDup (map BlogPost.title (blog_posts s)).

(** What one request can commit, with what the commit checked. *)
Inductive store_change (s : Store) : Store -> Prop :=
| change_nothing : store_change s s
| change_add_user (u : User.t) :
    User.id u = next_id (map User.id (users s)) ->
    email_taken s (User.email u) = false ->
    store_change s (mkStore (users s ++ [u]) (blog_posts s) (comments s))
| change_add_post (p : BlogPost.t) :
    BlogPost.id p = next_id (map BlogPost.id (blog_posts s)) ->
    title_taken s (BlogPost.title p) = false ->
    store_change s (mkStore (users s) (blog_posts s ++ [p]) (comments s))
| change_add_comment (c : Comment.t) :
    Comment.id c = next_id (map Comment.id (comments s)) ->
    store_change s (mkStore (users s) (blog_posts s) (comments s ++ [c]))
| change_edit_post (pk : nat) (d : CreatePostForm.t) :
    title_taken_by_other s pk (CreatePostForm.title d) = false ->
    store_change s
      (mkStore (users s) (update_post pk (edited d) (blog_posts s)) (comments s))
| change_delete_post (pk : nat) :
    store_change s
      (mkStore (users s)
         (filter (fun p => negb (BlogPost.id p =? pk)) (blog_posts s))
         (map (orphan pk) (comments s))).


(** * Properties *)

(** The primitives of the handler monad and of the collaborators, unfolded
    together when a handler is run on a given world. *)
Create HintDb blog.
#[local] Hint Unfold validate_on_submit validate_on_submit_method
  User_query_filter_by_first BlogPost_query_get_ BlogPost_query_all_ new_form
  field new_User new_BlogPost new_Comment db_session_add db_session_delete
  setattr stage db_session_commit login_user logout_user current_user flash
  emit get_db raise ret bind : blog.

(** ** Lists of rows *)

Lemma find_email_present (us : list User.t) (e : string) :
  (exists u, In u us /\ User.email u = e) ->
  exists u, find (fun u => String.eqb (User.email u) e) us = Some u.
Proof.
  intros [u [Hin He]].
  destruct (find (fun u => String.eqb (User.email u) e) us) as [u'|] eqn:F.
  - now exists u'.
  - apply (find_none _ _ F) in Hin. rewrite He, String.eqb_refl in Hin.
    discriminate.
Qed.

Lemma find_email_absent (us : list User.t) (e : string) :
  (forall u, In u us -> User.email u <> e) ->
  find (fun u => String.eqb (User.email u) e) us = None.
Proof.
  intros H.
  destruct (find (fun u => String.eqb (User.email u) e) us) as [u|] eqn:F; trivial.
  apply find_some in F. destruct F as [Hin He].
  apply String.eqb_eq in He. now apply H in Hin.
Qed.

Lemma email_taken_absent (s : Store) (e : string) :
  (forall u, In u (users s) -> User.email u <> e) -> email_taken s e = false.
Proof.
  intros H. unfold email_taken.
  destruct (existsb _ _) eqn:E; trivial.
  apply existsb_exists in E. destruct E as [u [Hin He]].
  apply String.eqb_eq in He. now apply H in Hin.
Qed.

Lemma next_id_above (ids : list nat) (x : nat) : In x ids -> x < next_id ids.
Proof.
  unfold next_id. induction ids as [|y ids IH]; simpl; intros H.
  - contradiction.
  - destruct H as [->|H]; [|apply IH in H]; lia.
Qed.

Lemma find_id_appended (us : list User.t) (u : User.t) :
  User.id u = next_id (map User.id us) ->
  find (fun x => User.id x =? User.id u) (us ++ [u]) = Some u.
Proof.
  intros Hid.
  assert (forall x, In x us -> (User.id x =? User.id u) = false) as Hfresh.
  { intros x Hx. apply Nat.eqb_neq. apply (in_map User.id) in Hx.
    apply next_id_above in Hx. lia. }
  clear Hid. induction us as [|x us IH]; simpl.
  - now rewrite Nat.eqb_refl.
  - rewrite (Hfresh x) by now left. apply IH. intros y Hy. apply Hfresh. now right.
Qed.

Lemma fits_integer_below (pk : nat) :
  (N.of_nat pk < 2 ^ 63)%N -> fits_integer pk = true.
Proof. intros H. unfold fits_integer. now apply N.ltb_lt. Qed.

(** ** The guard *)

Lemma identity_request_context (w : World) : identity (request_context w) = identity w.
Proof. reflexivity. Qed.

(** Whatever handler the guard wraps, a caller who is not the
    administrator gets the redirect and the world is left as it was. *)
Lemma admin_only_short_circuits {A} (f : A -> M Response) (args : A) (w : World) :
  not_admin w ->
  admin_only f args w = (Ok (Redirect ep_get_all_posts), w).
Proof.
  unfold admin_only, not_admin; autounfold with blog.
  intros [H | [u [H Hu]]]; rewrite H; simpl; trivial.
  apply Nat.eqb_neq in Hu. now rewrite Hu.
Qed.

Lemma admin_only_passes {A} (f : A -> M Response) (args : A) (w : World) :
  is_admin w -> admin_only f args w = f args w.
Proof.
  unfold admin_only, is_admin; autounfold with blog.
  intros [u [H Hu]]. rewrite H. simpl. now rewrite Hu.
Qed.

Section Properties.

Context {RegisterForm_validators : FlaskForm RegisterForm.t}
        {LoginForm_validators : FlaskForm LoginForm.t}
        {CommentForm_validators : FlaskForm CommentForm.t}
        {CreatePostForm_validators : FlaskForm CreatePostForm.t}.
Variable generate_password_hash : string -> string -> nat -> string -> string.
Variable check_password_hash : string -> string -> bool.
Variable env : Env.

Local Abbreviation serve := (dispatch generate_password_hash check_password_hash env).

(** C1. A request to one of the routes behind the admin guard (contact,
    new-post, edit-post, delete) by a caller who is anonymous or whose
    primary key is not 1 is answered with a redirect to the post listing;
    the wrapped handler is not entered (nothing is validated, queried or
    committed), and the store, the session and the flash queue are what
    they were, whatever the request carries. *)
Theorem admin_guard_denies (r : Route) (w : World) :
  admin_guarded r = true ->
  not_admin w ->
  run (serve r) w = (Ok (Redirect ep_get_all_posts), untouched w [] []).
Proof.
  intros Hg Hn.
  assert (not_admin (request_context w)) as Hn' by exact Hn.
  unfold run, untouched.
  destruct r; try discriminate Hg; simpl;
    unfold contact, add_new_post, edit_post, delete_post;
    rewrite (admin_only_short_circuits _ _ Hn'); simpl;
    now rewrite app_nil_r.
Qed.

(** ** Registration *)

(** C5, as the code has it.  A registration submission that passes the
    validation of its form and whose email is already in the User table
    inserts nothing: every table and the session are unchanged, the
    warning is flashed and the response is a redirect to the login page.
    (A submission that fails validation gets the registration form back
    instead.) *)
Theorem register_duplicate_email (req : Request RegisterForm.t) (w : World) :
  valid_submission req ->
  (exists u, In u (users (db w))
             /\ User.email u = RegisterForm.email (posted req)) ->
  run (register generate_password_hash env req) w
  = (Ok (Redirect ep_login),
     untouched w ["You've already sign up with that email, login instead"]
       [FormValidate "RegisterForm";
        UserQueryFilterBy (Some (RegisterForm.email (posted req)))]).
Proof.
  intros (Hm & Hc & Hv) Hdup.
  apply find_email_present in Hdup. destruct Hdup as [u Hu].
  destruct req as [m d c]; simpl in *; subst m c.
  unfold run, register, untouched; autounfold with blog; simpl.
  rewrite Hv; simpl. now rewrite Hu.
Qed.

(** C6. A registration submission that passes validation and whose email
    is in no row of the User table inserts exactly one row, whose password
    column holds what the hasher returns for the submitted password
    (method pbkdf2:sha256, salt length 8); the other tables are unchanged,
    the session is bound to the new row, which is the current identity
    from then on, and the response is a redirect to the listing. *)
Theorem register_fresh_email (req : Request RegisterForm.t) (w : World) :
  valid_submission req ->
  (forall u, In u (users (db w))
             -> User.email u <> RegisterForm.email (posted req)) ->
  let new_user :=
    User.make (next_id (map User.id (users (db w))))
      (RegisterForm.email (posted req))
      (generate_password_hash (RegisterForm.password (posted req))
         "pbkdf2:sha256" 8 (urandom env))
      (RegisterForm.name (posted req)) in
  let result := run (register generate_password_hash env req) w in
  fst result = Ok (Redirect ep_get_all_posts)
  /\ users (db (snd result)) = users (db w) ++ [new_user]
  /\ blog_posts (db (snd result)) = blog_posts (db w)
  /\ comments (db (snd result)) = comments (db w)
  /\ session_user_id (snd result) = Some (User.id new_user)
  /\ identity (snd result) = Some new_user.
Proof.
  intros (Hm & Hc & Hv) Hfresh new_user result.
  pose proof (find_email_absent _ Hfresh) as Hnone.
  pose proof (email_taken_absent (db w) Hfresh) as Htaken.
  assert (result
          = (Ok (Redirect ep_get_all_posts),
             mkWorld (mkStore (users (db w) ++ [new_user]) (blog_posts (db w))
                        (comments (db w)))
               (Some (User.id new_user)) (flashes w) []
               [FormValidate "RegisterForm";
                UserQueryFilterBy (Some (RegisterForm.email (posted req)));
                SessionCommit; LoginUser (User.id new_user)])) as ->.
  { subst result new_user. destruct req as [m d c]; simpl in *; subst m c.
    unfold run, register; autounfold with blog; simpl.
    rewrite Hv; simpl. rewrite Hnone; simpl. now rewrite Htaken. }
  simpl. repeat split.
  unfold identity, load_user, User_query_get; simpl.
  now apply (find_id_appended (users (db w)) new_user).
Qed.

(** ** Login *)

(** C8. A login submission whose email selects a stored user and whose
    password the verifier rejects against that user's stored hash leaves
    the session and the store as they were, flashes "Incorrect password"
    and renders the login form again (a page, not a redirect). *)
Theorem login_wrong_password (req : Request LoginForm.t) (w : World) (u : User.t) :
  method req = POST ->
  User_query_filter_by_email (db w) (Some (LoginForm.email (posted req))) = Some u ->
  check_password_hash (User.password u) (LoginForm.password (posted req)) = false ->
  run (login check_password_hash req) w
  = (Ok (Page "login.html"
           [("form", VForm (LoginFormView (new_form "LoginForm" req None)));
            ("bg_img_url", VUrl (url_for_static "img/login_bg_img.jpg"))]),
     untouched w ["Incorrect password"]
       [UserQueryFilterBy (Some (LoginForm.email (posted req)))]).
Proof.
  intros Hm Hu Hp.
  destruct req as [m d c]; simpl in *; subst m.
  unfold run, login, untouched; autounfold with blog; simpl.
  unfold User_query_filter_by_email in Hu. rewrite Hu; simpl. now rewrite Hp.
Qed.

(** ** Comments *)

(** C7, as the code has it.  A comment submission that passes validation,
    from a caller who is not logged in, on the detail page of a post ID
    below 2^63 (one the store can look up, whether or not the post
    exists), inserts nothing: the store and the session are unchanged, the
    warning is flashed, and the response is a bare redirect to the login
    page, which carries none of the submitted text.  (A submission that
    fails validation gets the post page back, form included; a larger ID
    fails in the lookup before the form is looked at.) *)
Theorem comment_requires_login (post_id : nat) (req : Request CommentForm.t)
  (w : World) :
  valid_submission req ->
  identity w = None ->
  (N.of_nat post_id < 2 ^ 63)%N ->
  run (show_post post_id req) w
  = (Ok (Redirect ep_login),
     untouched w ["You need to login to comment"]
       [BlogPostQueryGet post_id; FormValidate "CommentForm"]).
Proof.
  intros (Hm & Hc & Hv) Hanon Hfit. apply fits_integer_below in Hfit.
  destruct req as [m d c]; simpl in *; subst m c.
  unfold run, show_post, untouched; autounfold with blog; simpl.
  destruct (BlogPost_query_get (db w) post_id); simpl; rewrite ?Hfit; simpl;
    rewrite Hv; simpl; change (identity _) with (identity w); now rewrite Hanon.
Qed.

(** ** Editing and deleting posts *)

Lemma update_post_four (pk : nat) (d : CreatePostForm.t) (ps : list BlogPost.t) :
  update_post pk (set_attr attr_body (CreatePostForm.body d))
    (update_post pk (set_attr attr_img_url (CreatePostForm.img_url d))
       (update_post pk (set_attr attr_subtitle (CreatePostForm.subtitle d))
          (update_post pk (set_attr attr_title (CreatePostForm.title d)) ps)))
  = update_post pk (edited d) ps.
Proof.
  unfold update_post. rewrite !map_map. apply map_ext. intros p.
  destruct (BlogPost.id p =? pk) eqn:E; cbn; repeat (rewrite E; cbn);
    reflexivity.
Qed.

Lemma title_free (s : Store) (pk : nat) (t : string) :
  (forall p, In p (blog_posts s) -> BlogPost.id p <> pk -> BlogPost.title p <> t) ->
  title_taken_by_other s pk t = false.
Proof.
  intros H. unfold title_taken_by_other.
  destruct (existsb _ _) eqn:E; trivial.
  apply existsb_exists in E. destruct E as [p [Hin Hp]].
  apply andb_prop in Hp. destruct Hp as [Hid Ht].
  apply negb_true_iff, Nat.eqb_neq in Hid. apply String.eqb_eq in Ht.
  now apply (H p Hin Hid) in Ht.
Qed.

Lemma query_get_id (s : Store) (pk : nat) (p : BlogPost.t) :
  BlogPost_query_get s pk = Some p -> In p (blog_posts s) /\ BlogPost.id p = pk.
Proof.
  unfold BlogPost_query_get. intros H. apply find_some in H.
  destruct H as [Hin Hid]. apply Nat.eqb_eq in Hid. now split.
Qed.

(** C9, as the code has it.  A valid edit submission by the admin on an
    existing post, whose submitted title is not the title of another post,
    replaces the title, subtitle, cover image URL and body of that post by
    the submitted values; its key, author and date, every other post and
    the other tables stay as they were; the response is a redirect to the
    detail page of that post. *)
Theorem edit_post_replaces_fields (post_id : nat) (req : Request CreatePostForm.t)
  (w : World) (post : BlogPost.t) :
  is_admin w ->
  BlogPost_query_get (db w) post_id = Some post ->
  valid_submission req ->
  (forall p, In p (blog_posts (db w)) -> BlogPost.id p <> post_id ->
             BlogPost.title p <> CreatePostForm.title (posted req)) ->
  run (edit_post (post_id, req)) w
  = (Ok (Redirect (ep_show_post post_id)),
     mkWorld
       (mkStore (users (db w))
          (update_post post_id (edited (posted req)) (blog_posts (db w)))
          (comments (db w)))
       (session_user_id w) (flashes w) []
       [BlogPostQueryGet post_id; FormValidate "CreatePostForm"; SessionCommit]).
Proof.
  intros Hadm Hget (Hm & Hc & Hv) Htitle.
  assert (is_admin (request_context w)) as Hadm' by exact Hadm.
  apply title_free in Htitle.
  destruct (query_get_id _ _ Hget) as [_ Hid].
  destruct req as [m d c]; simpl in *; subst m c.
  unfold run, edit_post. rewrite (admin_only_passes _ _ Hadm').
  autounfold with blog; simpl.
  rewrite Hget; simpl. rewrite Hv; simpl. rewrite Hid, Htitle; simpl.
  now rewrite update_post_four.
Qed.

(** C3, as the code has it.  A delete request by the admin naming a post
    ID below 2^63 that is not in the Post table changes nothing in the
    store, the session or the flash queue, and the outcome is the same
    every time; but the handler has no existence check, so the outcome is
    the store layer's error for deleting a missing row, raised out of the
    handler, not a redirect or a not-found page.  (A larger ID does not
    reach the delete: the lookup itself raises.) *)
Theorem delete_missing_post_raises (post_id : nat) (w : World) :
  is_admin w ->
  BlogPost_query_get (db w) post_id = None ->
  (N.of_nat post_id < 2 ^ 63)%N ->
  run (delete_post post_id) w
  = (Raise UnmappedInstanceError, untouched w [] [BlogPostQueryGet post_id]).
Proof.
  intros Hadm Hget Hfit. apply fits_integer_below in Hfit.
  assert (is_admin (request_context w)) as Hadm' by exact Hadm.
  unfold run, delete_post. rewrite (admin_only_passes _ _ Hadm').
  unfold untouched; autounfold with blog; simpl.
  rewrite Hget, Hfit; simpl. now rewrite app_nil_r.
Qed.

(** Deleting a post that exists removes it, so the same request sent a
    second time is a request for a missing post. *)
Lemma delete_existing_post (post_id : nat) (w : World) (post : BlogPost.t) :
  is_admin w ->
  BlogPost_query_get (db w) post_id = Some post ->
  let result := run (delete_post post_id) w in
  fst result = Ok (Redirect ep_get_all_posts)
  /\ BlogPost_query_get (db (snd result)) post_id = None
  /\ users (db (snd result)) = users (db w)
  /\ session_user_id (snd result) = session_user_id w.
Proof.
  intros Hadm Hget.
  assert (is_admin (request_context w)) as Hadm' by exact Hadm.
  destruct (query_get_id _ _ Hget) as [_ Hid].
  unfold run, delete_post. rewrite (admin_only_passes _ _ Hadm').
  autounfold with blog; simpl.
  rewrite Hget; simpl. repeat split.
  unfold BlogPost_query_get; simpl. rewrite Hid.
  destruct (find _ (filter _ _)) as [p|] eqn:F; trivial.
  apply find_some in F. destruct F as [Hin Hp].
  apply filter_In in Hin. destruct Hin as [_ Hn]. now rewrite Hp in Hn.
Qed.

(** ** What a request does to the store *)

Lemma admin_only_cases {A} (f : A -> M Response) (args : A) (w : World) :
  admin_only f args w = (Ok (Redirect ep_get_all_posts), w)
  \/ admin_only f args w = f args w.
Proof.
  unfold admin_only; autounfold with blog; simpl.
  destruct (identity w) as [u|]; simpl; auto.
  destruct (User.id u =? 1); simpl; auto.
Qed.




(** ** The store stays well formed *)

Lemma NoDup_snoc {A} (l : list A) (x : A) :
  NoDup l -> ~ In x l -> NoDup (l ++ [x]).
Proof.
  induction 1 as [|y l Hy Hl IH]; simpl; intros Hx.
  - constructor; [easy | constructor].
  - constructor.
    + rewrite in_app_iff. simpl. intuition congruence.
    + apply IH. intuition.
Qed.

Lemma NoDup_map_filter {A B} (f : A -> B) (g : A -> bool) (l : list A) :
  NoDup (map f l) -> NoDup (map f (filter g l)).
Proof.
  induction l as [|x l IH]; simpl; intros H; trivial.
  inversion H as [|? ? Hx Hl]; subst.
  destruct (g x); simpl; auto.
  constructor; auto.
  intros Hin. apply Hx. apply in_map_iff in Hin.
  destruct Hin as [y [Hy Hin]]. apply filter_In in Hin.
  rewrite <- Hy. apply in_map. tauto.
Qed.

Lemma NoDup_map_unique {A B} (f : A -> B) (l : list A) (x y : A) :
  NoDup (map f l) -> In x l -> In y l -> f x = f y -> x = y.
Proof.
  induction l as [|z l IH]; simpl; intros H Hx Hy E; [contradiction|].
  inversion H as [|? ? Hz Hl]; subst.
  destruct Hx as [->|Hx], Hy as [->|Hy]; trivial.
  - exfalso. apply Hz. rewrite E. now apply in_map.
  - exfalso. apply Hz. rewrite <- E. now apply in_map.
  - now apply IH.
Qed.

Lemma next_id_not_in (ids : list nat) : ~ In (next_id ids) ids.
Proof. intros H. apply next_id_above in H. lia. Qed.

Lemma update_post_ids (pk : nat) (d : CreatePostForm.t) (ps : list BlogPost.t) :
  map BlogPost.id (update_post pk (edited d) ps) = map BlogPost.id ps.
Proof.
  unfold update_post. rewrite map_map. apply map_ext. intros p.
  now destruct (BlogPost.id p =? pk).
Qed.




End Properties.



(** A valid comment by a logged-in user, on an ID the store can look up,
    appends one row: the author is the current identity and the parent is
    whatever the lookup returned. *)
Lemma comment_inserted {CommentForm_validators : FlaskForm CommentForm.t}
  (post_id : nat) (req : Request CommentForm.t) (w : World) (u : User.t) :
  valid_submission req ->
  identity w = Some u ->
  (N.of_nat post_id < 2 ^ 63)%N ->
  db (snd (run (show_post post_id req) w))
  = mkStore (users (db w)) (blog_posts (db w))
      (comments (db w)
       ++ [Comment.make (next_id (map Comment.id (comments (db w))))
             (CommentForm.body (posted req)) (Some (User.id u))
             (option_map BlogPost.id (BlogPost_query_get (db w) post_id))]).
Proof.
  intros (Hm & Hc & Hv) Hu Hfit. apply fits_integer_below in Hfit.
  destruct req as [m d c]; simpl in *; subst m c.
  unfold run, show_post; autounfold with blog; simpl.
  destruct (BlogPost_query_get (db w) post_id); simpl; rewrite ?Hfit; simpl;
    rewrite Hv; simpl; change (identity _) with (identity w); now rewrite Hu.
Qed.

(** The login handler never consults the validators: whatever the form
    layer would say of the submission, a stored email with a password the
    verifier accepts logs the caller in. *)
Lemma login_accepts_unvalidated (check_password_hash : string -> string -> bool)
  (req : Request LoginForm.t) (w : World) (u : User.t) :
  method req = POST ->
  User_query_filter_by_email (db w) (Some (LoginForm.email (posted req))) = Some u ->
  check_password_hash (User.password u) (LoginForm.password (posted req)) = true ->
  run (login check_password_hash req) w
  = (Ok (Redirect ep_get_all_posts),
     mkWorld (db w) (Some (User.id u)) (flashes w) []
       [UserQueryFilterBy (Some (LoginForm.email (posted req)));
        LoginUser (User.id u)]).
Proof.
  intros Hm Hu Hp.
  destruct req as [m d c]; simpl in *; subst m.
  unfold run, login; autounfold with blog; simpl.
  unfold User_query_filter_by_email in Hu. rewrite Hu; simpl. now rewrite Hp.
Qed.

(** C2.  The handler the claim describes would validate first.  This one
    does not: a login POST that fails validation (its token check fails)
    but carries Alice's email and password is not validated at all (no
    [FormValidate] in the trace), the User table is queried, and the
    session is bound to Alice. *)
Theorem login_skips_validation :
  let req := mkRequest POST (LoginForm.make "a@x.com" "pw") false in
  let w := world_of sample_store None in
  ~ @valid_submission _ required_LoginForm req
  /\ run (login toy_check_password_hash req) w
     = (Ok (Redirect ep_get_all_posts),
        mkWorld sample_store (Some 1) [] []
          [UserQueryFilterBy (Some "a@x.com"); LoginUser 1]).
Proof.
  split.
  - intros (_ & Hc & _). discriminate Hc.
  - reflexivity.
Qed.

(** ** Start-up *)

(** C10, as the code has it.  When the environment has no SECRET_KEY the
    module-level code does not stop: the application is configured with
    the secret left unset (no default string is put in its place), and
    start-up goes on. *)
Theorem startup_without_secret (environ : Environ) :
  environ_get environ "SECRET_KEY" = None ->
  startup environ
  = Started
      (mkConfig None
         (environ_get_default environ "DATABASE_URL1" "sqlite:///blog.db")
         false).
Proof. intros H. unfold startup. now rewrite H. Qed.

(** A post ID of 2^63 or more is not looked up at all: binding it raises
    OverflowError.  The detail page raises it for every caller, before
    the comment form is validated; the edit and delete handlers raise it
    for the administrator (anyone else is turned away by the guard
    first).  Nothing changes in any of the three. *)
Theorem oversized_post_id_raises {CommentForm_validators : FlaskForm CommentForm.t}
  {CreatePostForm_validators : FlaskForm CreatePostForm.t} (post_id : nat)
  (creq : Request CommentForm.t) (preq : Request CreatePostForm.t) (w : World) :
  (2 ^ 63 <= N.of_nat post_id)%N ->
  BlogPost_query_get (db w) post_id = None ->
  run (show_post post_id creq) w
  = (Raise OverflowError, untouched w [] [BlogPostQueryGet post_id])
  /\ (is_admin w ->
      run (edit_post (post_id, preq)) w
      = (Raise OverflowError, untouched w [] [BlogPostQueryGet post_id])
      /\ run (delete_post post_id) w
         = (Raise OverflowError, untouched w [] [BlogPostQueryGet post_id])).
Proof.
  intros Hbig Hget.
  assert (fits_integer post_id = false) as Hfit.
  { unfold fits_integer. now apply N.ltb_ge. }
  split.
  - unfold run, show_post, untouched; autounfold with blog; simpl.
    rewrite Hget, Hfit; simpl. now rewrite app_nil_r.
  - intros Ha. assert (is_admin (request_context w)) as Ha' by exact Ha.
    split.
    + unfold run, edit_post, untouched. rewrite (admin_only_passes _ _ Ha').
      autounfold with blog; simpl. rewrite Hget, Hfit; simpl.
      now rewrite app_nil_r.
    + unfold run, delete_post, untouched. rewrite (admin_only_passes _ _ Ha').
      autounfold with blog; simpl. rewrite Hget, Hfit; simpl.
      now rewrite app_nil_r.
Qed.

Lemma oversized_post_id_does_not_fit : (2 ^ 63 <= N.of_nat oversized_post_id)%N.
Proof. unfold oversized_post_id. rewrite Nnat.N2Nat.id. apply N.le_refl. Qed.

Lemma sample_store_lacks_oversized :
  BlogPost_query_get sample_store oversized_post_id = None.
Proof.
  unfold BlogPost_query_get.
  destruct (find _ _) as [p|] eqn:F; trivial.
  apply find_some in F. destruct F as [Hin E]. apply Nat.eqb_eq in E.
  pose proof oversized_post_id_does_not_fit as Hbig. rewrite <- E in Hbig.
  exfalso. revert Hbig. clear E.
  destruct Hin as [<- | [<- | []]]; apply N.lt_nge; reflexivity.
Qed.

(** * The statements on concrete data *)

Example strftime_sample : strftime_B_d_Y (mkDate 2021 7 4) = "July 04, 2021".
Proof. reflexivity. Qed.

(** Registering into the empty store: one user, logged in. *)
Example register_first_user :
  let req := mkRequest POST (RegisterForm.make "a@x.com" "pw" "Alice") true in
  run (@register required_RegisterForm toy_generate_password_hash sample_env req)
    initial_world
  = (Ok (Redirect ep_get_all_posts),
     mkWorld (mkStore [alice] [] []) (Some 1) [] []
       [FormValidate "RegisterForm"; UserQueryFilterBy (Some "a@x.com");
        SessionCommit; LoginUser 1]).
Proof. reflexivity. Qed.

(** The toy verifier accepts what the toy hasher produced. *)
Example toy_hash_checks :
  toy_check_password_hash
    (toy_generate_password_hash "hunter2" "pbkdf2:sha256" 8 "saltsalt") "hunter2"
  = true
  /\ toy_check_password_hash (User.password bob) "guess" = false.
Proof. split; reflexivity. Qed.

Lemma admin_guard_denies_witness :
  let r := route_new_post
             (mkRequest POST (CreatePostForm.make "T3" "S3" "http://x/k.png" "B3")
                true) in
  let w := world_of sample_store (Some 2) in
  run (@dispatch required_RegisterForm required_CommentForm
         required_CreatePostForm toy_generate_password_hash
         toy_check_password_hash sample_env r) w
  = (Ok (Redirect ep_get_all_posts), untouched w [] []).
Proof.
  apply (@admin_guard_denies required_RegisterForm required_CommentForm
           required_CreatePostForm toy_generate_password_hash
           toy_check_password_hash sample_env).
  - reflexivity.
  - right. exists bob. split; [reflexivity | simpl; lia].
Defined.

Lemma register_duplicate_email_witness :
  let req := mkRequest POST (RegisterForm.make "a@x.com" "other" "Alice Again")
               true in
  let w := world_of sample_store None in
  run (@register required_RegisterForm toy_generate_password_hash sample_env req) w
  = (Ok (Redirect ep_login),
     untouched w ["You've already sign up with that email, login instead"]
       [FormValidate "RegisterForm"; UserQueryFilterBy (Some "a@x.com")]).
Proof.
  apply (@register_duplicate_email required_RegisterForm
           toy_generate_password_hash sample_env).
  - repeat split.
  - exists alice. split; [simpl; auto | reflexivity].
Defined.

(** C5 as stated fails: a registration POST with a stored email and an
    empty password does not pass validation, and gets the registration
    form back, not the redirect to the login page. *)
Lemma register_duplicate_email_counterexample :
  let req := mkRequest POST (RegisterForm.make "a@x.com" "" "Alice Again") true in
  let w := world_of sample_store None in
  (exists u, In u (users (db w))
             /\ User.email u = RegisterForm.email (posted req))
  /\ run (@register required_RegisterForm toy_generate_password_hash sample_env
            req) w
     = (Ok (Page "register.html"
              [("form", VForm (RegisterFormView (new_form "RegisterForm" req None)));
               ("bg_img_url", VUrl "/static/img/register-bg-img.jpg")]),
        untouched w [] [FormValidate "RegisterForm"]).
Proof.
  split.
  - exists alice. split; [simpl; auto | reflexivity].
  - reflexivity.
Qed.

Lemma register_fresh_email_witness :
  let req := mkRequest POST (RegisterForm.make "c@x.com" "s3cret" "Carol") true in
  let w := world_of sample_store None in
  let new_user := User.make 3 "c@x.com" "pbkdf2:sha256$saltsalt$s3cret" "Carol" in
  let result :=
    run (@register required_RegisterForm toy_generate_password_hash sample_env
           req) w in
  fst result = Ok (Redirect ep_get_all_posts)
  /\ users (db (snd result)) = [alice; bob; new_user]
  /\ blog_posts (db (snd result)) = [post1; post2]
  /\ comments (db (snd result)) = comments sample_store
  /\ session_user_id (snd result) = Some 3
  /\ identity (snd result) = Some new_user.
Proof.
  apply (@register_fresh_email required_RegisterForm toy_generate_password_hash
           sample_env
           (mkRequest POST (RegisterForm.make "c@x.com" "s3cret" "Carol") true)
           (world_of sample_store None)).
  - repeat split.
  - simpl. intros u [<- | [<- | []]]; discriminate.
Defined.

Lemma login_wrong_password_witness :
  let req := mkRequest POST (LoginForm.make "b@x.com" "guess") true in
  let w := world_of sample_store None in
  run (login toy_check_password_hash req) w
  = (Ok (Page "login.html"
           [("form", VForm (LoginFormView (new_form "LoginForm" req None)));
            ("bg_img_url", VUrl (url_for_static "img/login_bg_img.jpg"))]),
     untouched w ["Incorrect password"] [UserQueryFilterBy (Some "b@x.com")]).
Proof.
  apply (@login_wrong_password toy_check_password_hash
           (mkRequest POST (LoginForm.make "b@x.com" "guess") true)
           (world_of sample_store None) bob); reflexivity.
Defined.

Lemma comment_requires_login_witness :
  let req := mkRequest POST (CommentForm.make "first!") true in
  let w := world_of sample_store None in
  run (@show_post required_CommentForm 1 req) w
  = (Ok (Redirect ep_login),
     untouched w ["You need to login to comment"]
       [BlogPostQueryGet 1; FormValidate "CommentForm"]).
Proof.
  apply (@comment_requires_login required_CommentForm).
  - repeat split.
  - reflexivity.
  - reflexivity.
Defined.

(** C7 as stated fails, in two ways.  A comment POST by an anonymous
    caller whose token check fails does not pass validation; the post page
    is rendered again with the submitted form, draft included, and there
    is no redirect to login.  And a valid comment POST by an anonymous
    caller on /post/9223372036854775808 fails in the lookup, before the
    form is looked at: no warning, no redirect. *)
Lemma comment_requires_login_counterexample :
  let req := mkRequest POST (CommentForm.make "first!") false in
  let valid := mkRequest POST (CommentForm.make "first!") true in
  let w := world_of sample_store None in
  identity w = None
  /\ run (@show_post required_CommentForm 1 req) w
     = (Ok (Page "post.html"
              [("post", VPost (Some post1));
               ("form", VForm (CommentFormView (new_form "CommentForm" req None)))]),
        untouched w [] [BlogPostQueryGet 1; FormValidate "CommentForm"])
  /\ @valid_submission _ required_CommentForm valid
  /\ run (@show_post required_CommentForm oversized_post_id valid) w
     = (Raise OverflowError, untouched w [] [BlogPostQueryGet oversized_post_id]).
Proof.
  intros req valid w.
  split; [reflexivity|]. split; [reflexivity|]. split; [repeat split|].
  pose proof (@oversized_post_id_raises required_CommentForm
                required_CreatePostForm oversized_post_id valid
                (mkRequest GET (CreatePostForm.make "" "" "" "") true)
                (world_of sample_store None) oversized_post_id_does_not_fit
                sample_store_lacks_oversized) as [H _].
  exact H.
Qed.

Lemma edit_post_replaces_fields_witness :
  let req := mkRequest POST
               (CreatePostForm.make "T2 revised" "S2b" "http://x/n.png" "B2b")
               true in
  let w := world_of sample_store (Some 1) in
  run (@edit_post required_CreatePostForm (2, req)) w
  = (Ok (Redirect (ep_show_post 2)),
     mkWorld
       (mkStore [alice; bob]
          [post1;
           BlogPost.make 2 (Some 1) "T2 revised" "S2b" "July 05, 2021" "B2b"
             "http://x/n.png"]
          (comments sample_store))
       (Some 1) [] []
       [BlogPostQueryGet 2; FormValidate "CreatePostForm"; SessionCommit]).
Proof.
  apply (@edit_post_replaces_fields required_CreatePostForm 2
           (mkRequest POST
              (CreatePostForm.make "T2 revised" "S2b" "http://x/n.png" "B2b")
              true)
           (world_of sample_store (Some 1)) post2).
  - exists alice. split; reflexivity.
  - reflexivity.
  - repeat split.
  - simpl. intros p [<- | [<- | []]] H; simpl in *; [discriminate | lia].
Defined.

(** C9 as stated fails: the admin edits post 2 and submits the title of
    post 1.  The title column is unique, the commit raises, and no field
    of post 2 is replaced. *)
Lemma edit_post_duplicate_title_counterexample :
  let req := mkRequest POST
               (CreatePostForm.make "T1" "S2b" "http://x/n.png" "B2b") true in
  let w := world_of sample_store (Some 1) in
  is_admin w
  /\ BlogPost_query_get (db w) 2 = Some post2
  /\ @valid_submission _ required_CreatePostForm req
  /\ run (@edit_post required_CreatePostForm (2, req)) w
     = (Raise IntegrityError,
        untouched w []
          [BlogPostQueryGet 2; FormValidate "CreatePostForm"; SessionCommit]).
Proof.
  split; [exists alice; split; reflexivity|].
  split; [reflexivity|]. split; [repeat split|]. reflexivity.
Qed.

Lemma delete_missing_post_raises_witness :
  let w := world_of sample_store (Some 1) in
  run (delete_post 3) w
  = (Raise UnmappedInstanceError, untouched w [] [BlogPostQueryGet 3]).
Proof.
  apply (@delete_missing_post_raises 3 (world_of sample_store (Some 1))).
  - exists alice. split; reflexivity.
  - reflexivity.
  - reflexivity.
Defined.

(** C3 as stated fails: the admin deletes post 1 twice in a row.  The
    first request removes the row and redirects; the second finds no row
    and the error of [db.session.delete] escapes the handler.  A delete of
    /delete/9223372036854775808, which names no post either, does not get
    that far: the lookup raises. *)
Lemma delete_twice_counterexample :
  let w := world_of sample_store (Some 1) in
  let first := run (delete_post 1) w in
  let second := run (delete_post 1) (snd first) in
  is_admin w
  /\ is_admin (snd first)
  /\ fst first = Ok (Redirect ep_get_all_posts)
  /\ BlogPost_query_get (db (snd first)) 1 = None
  /\ fst second = Raise UnmappedInstanceError
  /\ BlogPost_query_get (db w) oversized_post_id = None
  /\ run (delete_post oversized_post_id) w
     = (Raise OverflowError, untouched w [] [BlogPostQueryGet oversized_post_id]).
Proof.
  intros w first second.
  assert (is_admin w) as Ha by (exists alice; split; reflexivity).
  split; [exact Ha|].
  split; [exists alice; split; reflexivity|].
  split; [reflexivity|]. split; [reflexivity|]. split; [reflexivity|].
  split; [exact sample_store_lacks_oversized|].
  pose proof (@oversized_post_id_raises required_CommentForm
                required_CreatePostForm oversized_post_id
                (mkRequest GET (CommentForm.make "") true)
                (mkRequest GET (CreatePostForm.make "" "" "" "") true)
                (world_of sample_store (Some 1)) oversized_post_id_does_not_fit
                sample_store_lacks_oversized) as [_ H].
  destruct (H Ha) as [_ Hdel]. exact Hdel.
Qed.



Lemma startup_without_secret_witness :
  startup [("DATABASE_URL1", "postgres://db/blog")]
  = Started (mkConfig None "postgres://db/blog" false).
Proof.
  apply (startup_without_secret [("DATABASE_URL1", "postgres://db/blog")]).
  reflexivity.
Defined.

(** C10 as stated fails: with an empty environment the module-level code
    runs to the end; there is no fatal exit and no diagnostic. *)
Lemma startup_counterexample :
  environ_get [] "SECRET_KEY" = None
  /\ startup [] = Started (mkConfig None "sqlite:///blog.db" false)
  /\ forall diagnostic, startup [] <> Fatal diagnostic.
Proof. repeat split. discriminate. Qed.


(** * Further properties of the handlers *)

Section Further.

Context {RegisterForm_validators : FlaskForm RegisterForm.t}
        {LoginForm_validators : FlaskForm LoginForm.t}
        {CommentForm_validators : FlaskForm CommentForm.t}
        {CreatePostForm_validators : FlaskForm CreatePostForm.t}.
Variable generate_password_hash : string -> string -> nat -> string -> string.
Variable check_password_hash : string -> string -> bool.
Variable env : Env.

Local Abbreviation serve := (dispatch generate_password_hash check_password_hash env).

Ltac committed := simpl; apply change_nothing.

Ltac at_guard :=
  match goal with
  | |- context [admin_only ?f ?a ?x] =>
      destruct (admin_only_cases f a x) as [-> | ->]
  end.

Lemma request_store_change_any (env' : Env) (r : Route) (w : World) :
  store_change (db w)
    (db (snd (run (dispatch generate_password_hash check_password_hash env' r) w))).
Proof.
  unfold run.
  destruct r as [|req|req| |post_id req| | |req|post_id req|post_id]; simpl.
  - committed.
  - destruct req as [[|] d c];
      unfold register; autounfold with blog; simpl; try committed.
    destruct (c && validate d); simpl; try committed.
    destruct (find _ _); simpl; try committed.
    destruct (email_taken _ _) eqn:E; simpl; try committed.
    now apply change_add_user.
  - destruct req as [[|] d c];
      unfold login; autounfold with blog; simpl; try committed.
    destruct (find _ _) as [u|]; simpl; try committed.
    destruct (check_password_hash _ _); committed.
  - unfold logout, login_required; autounfold with blog; simpl.
    destruct (identity _); committed.
  - unfold show_post; autounfold with blog; simpl.
    destruct (BlogPost_query_get (db w) post_id) as [post|]; simpl;
      [|destruct (fits_integer post_id); simpl; try committed];
      (destruct req as [[|] d c]; simpl; try committed;
       destruct (c && validate d); simpl; try committed;
       change (identity _) with (identity w);
       destruct (identity w) as [u|]; simpl; try committed;
       now apply change_add_comment).
  - committed.
  - unfold contact. at_guard; committed.
  - unfold add_new_post. at_guard; try committed.
    destruct req as [[|] d c]; autounfold with blog; simpl; try committed.
    destruct (c && validate d); simpl; try committed.
    destruct (title_taken _ _) eqn:E; simpl; try committed.
    now apply change_add_post.
  - unfold edit_post. at_guard; try committed.
    autounfold with blog; simpl.
    destruct (BlogPost_query_get (db w) post_id) as [post|] eqn:Hget; simpl;
      [|destruct (fits_integer post_id); committed].
    destruct req as [[|] d c]; autounfold with blog; simpl; try committed.
    destruct (c && validate d); simpl; try committed.
    destruct (query_get_id _ _ Hget) as [_ ->].
    destruct (title_taken_by_other _ _ _) eqn:E; simpl; try committed.
    rewrite update_post_four. now apply change_edit_post.
  - unfold delete_post. at_guard; try committed.
    autounfold with blog; simpl.
    destruct (BlogPost_query_get (db w) post_id) as [post|] eqn:Hget; simpl;
      [|destruct (fits_integer post_id); committed].
    destruct (query_get_id _ _ Hget) as [_ ->].
    apply change_delete_post.
Qed.

(** ** Keys and unique columns *)

Lemma email_free_not_in (s : Store) (e : string) :
  email_taken s e = false -> ~ In e (map User.email (users s)).
Proof.
  unfold email_taken. intros H Hin.
  apply in_map_iff in Hin. destruct Hin as [u [He Hu]].
  assert (existsb (fun u => String.eqb (User.email u) e) (users s) = true) as E.
  { apply existsb_exists. exists u. split; trivial. now apply String.eqb_eq. }
  congruence.
Qed.

Lemma title_free_not_in (s : Store) (t : string) :
  title_taken s t = false -> ~ In t (map BlogPost.title (blog_posts s)).
Proof.
  unfold title_taken. intros H Hin.
  apply in_map_iff in Hin. destruct Hin as [p [Ht Hp]].
  assert (existsb (fun p => String.eqb (BlogPost.title p) t) (blog_posts s) = true)
    as E.
  { apply existsb_exists. exists p. split; trivial. now apply String.eqb_eq. }
  congruence.
Qed.

Lemma title_others_differ (s : Store) (pk : nat) (t : string) :
  title_taken_by_other s pk t = false ->
  forall p, In p (blog_posts s) -> BlogPost.id p <> pk -> BlogPost.title p <> t.
Proof.
  unfold title_taken_by_other. intros H p Hp Hid Ht.
  assert (existsb (fun p => negb (BlogPost.id p =? pk)
                            && String.eqb (BlogPost.title p) t) (blog_posts s)
          = true) as E.
  { apply existsb_exists. exists p. split; trivial.
    apply andb_true_intro. split.
    - now apply negb_true_iff, Nat.eqb_neq.
    - now apply String.eqb_eq. }
  congruence.
Qed.

Lemma orphan_ids (pk : nat) (cs : list Comment.t) :
  map Comment.id (map (orphan pk) cs) = map Comment.id cs.
Proof.
  rewrite map_map. apply map_ext. intros c. unfold orphan.
  destruct (Comment.post_id c) as [q|]; trivial.
  now destruct (q =? pk).
Qed.

Lemma update_post_elsewhere (pk : nat) (f : BlogPost.t -> BlogPost.t)
  (ps : list BlogPost.t) :
  ~ In pk (map BlogPost.id ps) -> update_post pk f ps = ps.
Proof.
  unfold update_post. induction ps as [|p ps IH]; simpl; intros H; trivial.
  destruct (BlogPost.id p =? pk) eqn:E.
  - apply Nat.eqb_eq in E. exfalso. apply H. now left.
  - f_equal. apply IH. intros Hin. apply H. now right.
Qed.

Lemma update_post_titles (pk : nat) (d : CreatePostForm.t) (ps : list BlogPost.t) :
  NoDup (map BlogPost.id ps) ->
  NoDup (map BlogPost.title ps) ->
  (forall p, In p ps -> BlogPost.id p <> pk
             -> BlogPost.title p <> CreatePostForm.title d) ->
  NoDup (map BlogPost.title (update_post pk (edited d) ps)).
Proof.
  induction ps as [|p ps IH]; simpl; intros Hid Ht Hother; [constructor|].
  inversion Hid as [|? ? Hp Hids]; subst.
  inversion Ht as [|? ? Hpt Hts]; subst.
  destruct (BlogPost.id p =? pk) eqn:E.
  - apply Nat.eqb_eq in E. subst pk.
    rewrite update_post_elsewhere by assumption. simpl.
    constructor; trivial.
    intros Hin. apply in_map_iff in Hin. destruct Hin as [q [Hq Hqin]].
    apply (Hother q); [now right | | assumption].
    intros Heq. apply Hp. rewrite <- Heq. now apply in_map.
  - apply Nat.eqb_neq in E. constructor.
    + intros Hin. apply in_map_iff in Hin. destruct Hin as [q [Hq Hqin]].
      unfold update_post in Hqin. apply in_map_iff in Hqin.
      destruct Hqin as [q0 [Hq0 Hq0in]].
      destruct (BlogPost.id q0 =? pk); subst q.
      * simpl in Hq. apply (Hother p); [now left | assumption | now symmetry].
      * apply Hpt. rewrite <- Hq. now apply in_map.
    + apply IH; trivial. intros q Hq. apply Hother. now right.
Qed.

Lemma store_change_keys (s s' : Store) :
  unique_keys s -> store_change s s' -> unique_keys s'.
Proof.
  intros (Hu & Hp & Hc) Hch.
  destruct Hch as [ |u Hid E|p Hid E|c Hid|pk d E|pk]; unfold unique_keys; simpl;
    rewrite ?map_app; simpl; auto.
  - repeat split; trivial. apply NoDup_snoc; trivial.
    rewrite Hid. apply next_id_not_in.
  - repeat split; trivial. apply NoDup_snoc; trivial.
    rewrite Hid. apply next_id_not_in.
  - repeat split; trivial. apply NoDup_snoc; trivial.
    rewrite Hid. apply next_id_not_in.
  - rewrite update_post_ids. auto.
  - rewrite orphan_ids. repeat split; trivial. now apply NoDup_map_filter.
Qed.

Lemma store_change_columns (s s' : Store) :
  unique_keys s -> unique_columns s -> store_change s s' -> unique_columns s'.
Proof.
  intros (Hu & Hp & Hc) (He & Ht) Hch.
  destruct Hch as [ |u Hid E|p Hid E|c Hid|pk d E|pk]; unfold unique_columns;
    simpl; rewrite ?map_app; simpl; auto.
  - split; trivial. apply NoDup_snoc; trivial. now apply email_free_not_in.
  - split; trivial. apply NoDup_snoc; trivial. now apply title_free_not_in.
  - split; trivial. apply update_post_titles; trivial.
    now apply title_others_differ.
  - split; trivial. now apply NoDup_map_filter.
Qed.

Lemma reachable_keys_and_columns (w : World) :
  reachable generate_password_hash check_password_hash w ->
  unique_keys (db w) /\ unique_columns (db w).
Proof.
  induction 1 as [|w env' r Hw [IHk IHc]].
  - repeat split; constructor.
  - pose proof (request_store_change_any env' r w) as Hch. split.
    + now apply (store_change_keys IHk).
    + now apply (store_change_columns IHk IHc).
Qed.

(** In every world the application can reach, no primary key occurs
    twice in the User, Post or Comment table. *)
Theorem reachable_unique_keys (w : World) :
  reachable generate_password_hash check_password_hash w -> unique_keys (db w).
Proof. intros H. now apply reachable_keys_and_columns in H. Qed.

(** In every world the application can reach, no two users share an email
    and no two posts share a title. *)
Theorem reachable_unique_columns (w : World) :
  reachable generate_password_hash check_password_hash w -> unique_columns (db w).
Proof. intros H. now apply reachable_keys_and_columns in H. Qed.

(** ** Who can change what *)

(** No request removes or alters a User row: the table after the request
    is the table before it, with at most one row appended. *)
Theorem users_never_removed (r : Route) (w : World) :
  users (db (snd (run (serve r) w))) = users (db w)
  \/ exists u, users (db (snd (run (serve r) w))) = users (db w) ++ [u].
Proof.
  destruct (request_store_change_any env r w); simpl; eauto.
Qed.

Ltac crunch :=
  repeat (simpl;
          match goal with
          | |- context [match ?x with _ => _ end] =>
              lazymatch x with
              | context [match _ with _ => _ end] => fail
              | _ => destruct x eqn:?
              end
          end);
  simpl.

(** Whatever the route and the payload, a request from a caller who is not
    the administrator leaves the Post table as it was. *)
Theorem posts_need_admin (r : Route) (w : World) :
  not_admin w ->
  blog_posts (db (snd (run (serve r) w))) = blog_posts (db w).
Proof.
  intros Hn.
  assert (not_admin (request_context w)) as Hn' by exact Hn.
  unfold run.
  destruct r as [|req|req| |post_id req| | |req|post_id req|post_id]; simpl;
    try (unfold contact, add_new_post, edit_post, delete_post;
         rewrite (admin_only_short_circuits _ _ Hn'); reflexivity).
  - reflexivity.
  - destruct req as [m d c]. unfold register; autounfold with blog. crunch;
      reflexivity.
  - destruct req as [m d c].
    unfold login; autounfold with blog; unfold User_query_filter_by_email.
    crunch; reflexivity.
  - unfold logout, login_required; autounfold with blog. crunch; reflexivity.
  - destruct req as [m d c]. unfold show_post; autounfold with blog. crunch;
      reflexivity.
  - reflexivity.
Qed.

(** A request from a caller who is not logged in leaves the Post and the
    Comment tables as they were: all an anonymous caller can add to the
    store is a user, by registering. *)
Theorem anonymous_adds_users_only (r : Route) (w : World) :
  identity w = None ->
  blog_posts (db (snd (run (serve r) w))) = blog_posts (db w)
  /\ comments (db (snd (run (serve r) w))) = comments (db w).
Proof.
  intros Ha.
  assert (not_admin (request_context w)) as Hn' by (left; exact Ha).
  assert (identity (request_context w) = None) as Ha' by exact Ha.
  unfold run.
  destruct r as [|req|req| |post_id req| | |req|post_id req|post_id]; simpl;
    try (unfold contact, add_new_post, edit_post, delete_post;
         rewrite (admin_only_short_circuits _ _ Hn'); split; reflexivity).
  - split; reflexivity.
  - destruct req as [m d c]. unfold register; autounfold with blog. crunch;
      split; reflexivity.
  - destruct req as [m d c].
    unfold login; autounfold with blog; unfold User_query_filter_by_email.
    crunch; split; reflexivity.
  - unfold logout, login_required; autounfold with blog. crunch; split;
      reflexivity.
  - destruct req as [m d c]. unfold show_post; autounfold with blog; simpl.
    destruct (BlogPost_query_get (db w) post_id); simpl;
      [|destruct (fits_integer post_id); simpl; [|split; reflexivity]];
      (destruct m; simpl; [split; reflexivity|];
       destruct (c && validate d); simpl; [|split; reflexivity];
       change (identity _) with (identity w); rewrite Ha; simpl;
       split; reflexivity).
  - split; reflexivity.
Qed.

(** A GET request to any route but [/logout] and [/delete/<id>] only
    reads: the rows, the session and the flash queue are the same after
    it, whoever sends it and whether or not it ends in an error. *)
Theorem get_requests_only_read (r : Route) (w : World) :
  read_only_request r = true ->
  same_state w (snd (run (serve r) w)).
Proof.
  intros Hr. unfold run, same_state.
  destruct r as [|req|req| |post_id req| | |req|post_id req|post_id]; simpl in *;
    try discriminate Hr;
    try (destruct req as [[|] d c]; try discriminate Hr).
  - repeat split.
  - repeat split.
  - repeat split.
  - unfold show_post; autounfold with blog; simpl.
    destruct (BlogPost_query_get (db w) post_id);
      [|destruct (fits_integer post_id)]; repeat split.
  - repeat split.
  - unfold contact. at_guard; repeat split.
  - unfold add_new_post. at_guard; repeat split.
  - unfold edit_post. at_guard; [repeat split|].
    autounfold with blog; simpl.
    destruct (BlogPost_query_get (db w) post_id);
      [|destruct (fits_integer post_id)]; repeat split.
Qed.

(** ** Logging in and out *)

(** [/logout] from a logged-in caller unbinds the session and redirects to
    the listing; the rows and the flash queue are not touched. *)
Theorem logout_clears_session (w : World) (u : User.t) :
  identity w = Some u ->
  run (logout tt) w
  = (Ok (Redirect ep_get_all_posts),
     mkWorld (db w) None (flashes w) [] [LogoutUser]).
Proof.
  intros Hu. unfold run, logout, login_required; autounfold with blog; simpl.
  change (identity _) with (identity w). now rewrite Hu.
Qed.

(** [/logout] from a caller with no identity is refused with status 401
    (no login view is configured); nothing changes, and the handler body
    is not entered. *)
Theorem logout_requires_login (w : World) :
  identity w = None ->
  run (logout tt) w = (Ok (Abort 401), untouched w [] []).
Proof.
  intros Hu.
  unfold run, logout, login_required, untouched; autounfold with blog; simpl.
  change (identity _) with (identity w). rewrite Hu. simpl.
  now rewrite app_nil_r.
Qed.

Lemma query_get_unique (s : Store) (u : User.t) :
  NoDup (map User.id (users s)) -> In u (users s) ->
  User_query_get s (User.id u) = Some u.
Proof.
  intros Hnd Hin. unfold User_query_get.
  destruct (find _ _) as [x|] eqn:F.
  - apply find_some in F. destruct F as [Hx E]. apply Nat.eqb_eq in E.
    f_equal. now apply (NoDup_map_unique User.id (users s)).
  - apply (find_none _ _ F) in Hin. now rewrite Nat.eqb_refl in Hin.
Qed.

(** A login submission whose email selects a stored user and whose
    password the verifier accepts binds the session to that user and
    redirects to the listing, without touching the rows; with unique keys
    in the User table, that user is the current identity afterwards. *)
Theorem login_binds_session (req : Request LoginForm.t) (w : World) (u : User.t) :
  method req = POST ->
  NoDup (map User.id (users (db w))) ->
  User_query_filter_by_email (db w) (Some (LoginForm.email (posted req))) = Some u ->
  check_password_hash (User.password u) (LoginForm.password (posted req)) = true ->
  let result := run (login check_password_hash req) w in
  fst result = Ok (Redirect ep_get_all_posts)
  /\ db (snd result) = db w
  /\ flashes (snd result) = flashes w
  /\ session_user_id (snd result) = Some (User.id u)
  /\ identity (snd result) = Some u.
Proof.
  intros Hm Hnd Hu Hp result. subst result.
  rewrite (login_accepts_unvalidated check_password_hash req w Hm Hu Hp). simpl.
  repeat split. unfold identity, load_user; simpl.
  apply query_get_unique; trivial.
  unfold User_query_filter_by_email in Hu. now apply find_some in Hu.
Qed.

(** A login submission whose email is in no row of the User table gets
    the login form back with no message flashed; nothing changes. *)
Theorem login_unknown_email (req : Request LoginForm.t) (w : World) :
  method req = POST ->
  (forall u, In u (users (db w)) -> User.email u <> LoginForm.email (posted req)) ->
  run (login check_password_hash req) w
  = (Ok (Page "login.html"
           [("form", VForm (LoginFormView (new_form "LoginForm" req None)));
            ("bg_img_url", VUrl (url_for_static "img/login_bg_img.jpg"))]),
     untouched w [] [UserQueryFilterBy (Some (LoginForm.email (posted req)))]).
Proof.
  intros Hm Hnone. apply find_email_absent in Hnone.
  destruct req as [m d c]; simpl in *; subst m.
  unfold run, login, untouched; autounfold with blog; simpl.
  rewrite Hnone; simpl. now rewrite app_nil_r.
Qed.

(** ** The guard, from the admin's side *)

Lemma admin_or_not (w : World) : is_admin w \/ not_admin w.
Proof.
  unfold is_admin, not_admin. destruct (identity w) as [u|]; [|now right; left].
  destruct (Nat.eq_dec (User.id u) 1) as [E|E].
  - left. now exists u.
  - right. right. now exists u.
Qed.

(** The contact page is rendered for the administrator and for nobody
    else. *)
Theorem contact_iff_admin (w : World) :
  fst (run (contact tt) w) = Ok (Page "contact.html" []) <-> is_admin w.
Proof.
  split.
  - intros H. destruct (admin_or_not w) as [Ha | Hn]; trivial.
    assert (not_admin (request_context w)) as Hn' by exact Hn.
    unfold run, contact in H.
    rewrite (admin_only_short_circuits _ _ Hn') in H. discriminate H.
  - intros Ha. assert (is_admin (request_context w)) as Ha' by exact Ha.
    unfold run, contact. now rewrite (admin_only_passes _ _ Ha').
Qed.

(** ** Creating posts *)

Lemma find_post_appended (ps : list BlogPost.t) (p : BlogPost.t) :
  BlogPost.id p = next_id (map BlogPost.id ps) ->
  find (fun x => BlogPost.id x =? BlogPost.id p) (ps ++ [p]) = Some p.
Proof.
  intros Hid.
  assert (forall x, In x ps -> (BlogPost.id x =? BlogPost.id p) = false) as Hfresh.
  { intros x Hx. apply Nat.eqb_neq. apply (in_map BlogPost.id) in Hx.
    apply next_id_above in Hx. lia. }
  clear Hid. induction ps as [|x ps IH]; simpl.
  - now rewrite Nat.eqb_refl.
  - rewrite (Hfresh x) by now left. apply IH. intros y Hy. apply Hfresh. now right.
Qed.

Lemma title_taken_absent (s : Store) (t : string) :
  (forall p, In p (blog_posts s) -> BlogPost.title p <> t) -> title_taken s t = false.
Proof.
  intros H. unfold title_taken.
  destruct (existsb _ _) eqn:E; trivial.
  apply existsb_exists in E. destruct E as [p [Hin Hp]].
  apply String.eqb_eq in Hp. now apply H in Hin.
Qed.

Lemma title_taken_present (s : Store) (t : string) :
  (exists p, In p (blog_posts s) /\ BlogPost.title p = t) -> title_taken s t = true.
Proof.
  intros [p [Hin Hp]]. unfold title_taken. apply existsb_exists.
  exists p. split; trivial. now apply String.eqb_eq.
Qed.

(** A valid new-post submission by the administrator, with a title no
    post has yet, appends exactly one post: the next key, the submitted
    fields, the administrator as author and today's date written as
    "Month DD, YYYY".  The other tables are unchanged, the response is a
    redirect to the listing, and the post is found under its key. *)
Theorem add_new_post_creates (req : Request CreatePostForm.t) (w : World)
  (u : User.t) :
  identity w = Some u ->
  User.id u = 1 ->
  valid_submission req ->
  (forall p, In p (blog_posts (db w))
             -> BlogPost.title p <> CreatePostForm.title (posted req)) ->
  let new_post :=
    BlogPost.make (next_id (map BlogPost.id (blog_posts (db w)))) (Some 1)
      (CreatePostForm.title (posted req)) (CreatePostForm.subtitle (posted req))
      (strftime_B_d_Y (today env)) (CreatePostForm.body (posted req))
      (CreatePostForm.img_url (posted req)) in
  let result := run (add_new_post env req) w in
  fst result = Ok (Redirect ep_get_all_posts)
  /\ db (snd result)
     = mkStore (users (db w)) (blog_posts (db w) ++ [new_post]) (comments (db w))
  /\ session_user_id (snd result) = session_user_id w
  /\ BlogPost_query_get (db (snd result)) (BlogPost.id new_post) = Some new_post.
Proof.
  intros Hu Hid (Hm & Hc & Hv) Hfresh new_post result.
  assert (is_admin (request_context w)) as Ha by (exists u; split; assumption).
  apply title_taken_absent in Hfresh.
  assert (result
          = (Ok (Redirect ep_get_all_posts),
             mkWorld (mkStore (users (db w)) (blog_posts (db w) ++ [new_post])
                        (comments (db w)))
               (session_user_id w) (flashes w) []
               [FormValidate "CreatePostForm"; SessionCommit])) as ->.
  { subst result new_post. destruct req as [m d c]; simpl in *; subst m c.
    unfold run, add_new_post. rewrite (admin_only_passes _ _ Ha).
    autounfold with blog; simpl. rewrite Hv; simpl.
    change (identity _) with (identity w). rewrite Hu; simpl.
    rewrite Hfresh; simpl. now rewrite Hid. }
  simpl. repeat split.
  unfold BlogPost_query_get; simpl.
  now apply (find_post_appended (blog_posts (db w)) new_post).
Qed.

(** A valid new-post submission by the administrator whose title some
    post already has is stopped by the unique column at commit: the error
    leaves the handler, and no row is added. *)
Theorem add_new_post_duplicate_title (req : Request CreatePostForm.t) (w : World) :
  is_admin w ->
  valid_submission req ->
  (exists p, In p (blog_posts (db w))
             /\ BlogPost.title p = CreatePostForm.title (posted req)) ->
  run (add_new_post env req) w
  = (Raise IntegrityError,
     untouched w [] [FormValidate "CreatePostForm"; SessionCommit]).
Proof.
  intros Ha (Hm & Hc & Hv) Hdup.
  assert (is_admin (request_context w)) as Ha' by exact Ha.
  apply title_taken_present in Hdup.
  destruct req as [m d c]; simpl in *; subst m c.
  unfold run, add_new_post, untouched. rewrite (admin_only_passes _ _ Ha').
  autounfold with blog; simpl. rewrite Hv; simpl. rewrite Hdup; simpl.
  now rewrite app_nil_r.
Qed.

(** ** Editing posts *)

(** An edit request by the administrator for a post ID below 2^63 that is
    not in the table fails while the form is being filled from the missing
    row: the attribute error leaves the handler, whatever the method and
    payload, and nothing changes. *)
Theorem edit_missing_post_raises (post_id : nat) (req : Request CreatePostForm.t)
  (w : World) :
  is_admin w ->
  BlogPost_query_get (db w) post_id = None ->
  (N.of_nat post_id < 2 ^ 63)%N ->
  run (edit_post (post_id, req)) w
  = (Raise AttributeError, untouched w [] [BlogPostQueryGet post_id]).
Proof.
  intros Ha Hget Hfit. apply fits_integer_below in Hfit.
  assert (is_admin (request_context w)) as Ha' by exact Ha.
  unfold run, edit_post, untouched. rewrite (admin_only_passes _ _ Ha').
  autounfold with blog; simpl. rewrite Hget, Hfit; simpl. now rewrite app_nil_r.
Qed.


(** A GET of the edit page by the administrator for an existing post
    renders the post form filled with that post's title, subtitle, cover
    image URL and body; nothing changes. *)
Theorem edit_post_get_prefills (post_id : nat) (req : Request CreatePostForm.t)
  (w : World) (post : BlogPost.t) :
  is_admin w ->
  BlogPost_query_get (db w) post_id = Some post ->
  method req = GET ->
  run (edit_post (post_id, req)) w
  = (Ok (Page "make-post.html"
           [("form",
             VForm (CreatePostFormView
                      (mkForm "CreatePostForm" false (csrf_ok req)
                         (Some (CreatePostForm.make (BlogPost.title post)
                                  (BlogPost.subtitle post) (BlogPost.img_url post)
                                  (BlogPost.body post))))))]),
     untouched w [] [BlogPostQueryGet post_id; FormValidate "CreatePostForm"]).
Proof.
  intros Ha Hget Hm. assert (is_admin (request_context w)) as Ha' by exact Ha.
  destruct req as [m d c]; simpl in *; subst m.
  unfold run, edit_post, untouched. rewrite (admin_only_passes _ _ Ha').
  autounfold with blog; simpl. rewrite Hget; simpl. now rewrite app_nil_r.
Qed.

Lemma edit_post_commit (post_id : nat) (req : Request CreatePostForm.t)
  (w : World) (post : BlogPost.t) :
  is_admin w ->
  BlogPost_query_get (db w) post_id = Some post ->
  valid_submission req ->
  title_taken_by_other (db w) post_id (CreatePostForm.title (posted req)) = false ->
  run (edit_post (post_id, req)) w
  = (Ok (Redirect (ep_show_post post_id)),
     mkWorld
       (mkStore (users (db w))
          (update_post post_id (edited (posted req)) (blog_posts (db w)))
          (comments (db w)))
       (session_user_id w) (flashes w) []
       [BlogPostQueryGet post_id; FormValidate "CreatePostForm"; SessionCommit]).
Proof.
  intros Ha Hget (Hm & Hc & Hv) Htitle.
  assert (is_admin (request_context w)) as Ha' by exact Ha.
  destruct (query_get_id _ _ Hget) as [_ Hid].
  destruct req as [m d c]; simpl in *; subst m c.
  unfold run, edit_post. rewrite (admin_only_passes _ _ Ha').
  autounfold with blog; simpl.
  rewrite Hget; simpl. rewrite Hv; simpl. rewrite Hid, Htitle; simpl.
  now rewrite update_post_four.
Qed.

Lemma find_update_post (pk : nat) (d : CreatePostForm.t) (ps : list BlogPost.t) :
  find (fun p => BlogPost.id p =? pk) (update_post pk (edited d) ps)
  = option_map (edited d) (find (fun p => BlogPost.id p =? pk) ps).
Proof.
  unfold update_post. induction ps as [|p ps IH]; simpl; trivial.
  destruct (BlogPost.id p =? pk) eqn:E; simpl; rewrite E; trivial.
Qed.

Lemma update_post_twice (pk : nat) (d : CreatePostForm.t) (ps : list BlogPost.t) :
  update_post pk (edited d) (update_post pk (edited d) ps)
  = update_post pk (edited d) ps.
Proof.
  unfold update_post. rewrite map_map. apply map_ext. intros p.
  destruct (BlogPost.id p =? pk) eqn:E; simpl; now rewrite E.
Qed.

Lemma title_taken_by_other_update (s : Store) (pk : nat) (d : CreatePostForm.t)
  (t : string) :
  title_taken_by_other
    (mkStore (users s) (update_post pk (edited d) (blog_posts s)) (comments s))
    pk t
  = title_taken_by_other s pk t.
Proof.
  unfold title_taken_by_other, update_post; simpl.
  induction (blog_posts s) as [|p ps IH]; simpl; trivial.
  rewrite IH. f_equal.
  destruct (BlogPost.id p =? pk) eqn:E; simpl; now rewrite E.
Qed.

(** After a successful edit the post is found under its old key and reads
    as submitted: the four submitted fields, with the key, author and date
    it had. *)
Theorem edit_then_lookup (post_id : nat) (req : Request CreatePostForm.t)
  (w : World) (post : BlogPost.t) :
  is_admin w ->
  BlogPost_query_get (db w) post_id = Some post ->
  valid_submission req ->
  (forall p, In p (blog_posts (db w)) -> BlogPost.id p <> post_id ->
             BlogPost.title p <> CreatePostForm.title (posted req)) ->
  BlogPost_query_get (db (snd (run (edit_post (post_id, req)) w))) post_id
  = Some (BlogPost.make post_id (BlogPost.author_id post)
            (CreatePostForm.title (posted req))
            (CreatePostForm.subtitle (posted req)) (BlogPost.date post)
            (CreatePostForm.body (posted req))
            (CreatePostForm.img_url (posted req))).
Proof.
  intros Ha Hget Hv Htitle. apply title_free in Htitle.
  rewrite (edit_post_commit post_id Ha Hget Hv Htitle). simpl.
  unfold BlogPost_query_get in *; simpl. rewrite find_update_post, Hget. simpl.
  unfold edited. now destruct (query_get_id (db w) post_id Hget) as [_ ->].
Qed.

(** Sending the same valid edit a second time succeeds again and changes
    nothing more: the store after the second request is the store after
    the first. *)
Theorem edit_post_twice (post_id : nat) (req : Request CreatePostForm.t)
  (w : World) (post : BlogPost.t) :
  is_admin w ->
  BlogPost_query_get (db w) post_id = Some post ->
  valid_submission req ->
  (forall p, In p (blog_posts (db w)) -> BlogPost.id p <> post_id ->
             BlogPost.title p <> CreatePostForm.title (posted req)) ->
  let first := run (edit_post (post_id, req)) w in
  let second := run (edit_post (post_id, req)) (snd first) in
  fst second = Ok (Redirect (ep_show_post post_id))
  /\ db (snd second) = db (snd first).
Proof.
  intros Ha Hget Hv Htitle first second. apply title_free in Htitle.
  subst second first.
  rewrite (edit_post_commit post_id Ha Hget Hv Htitle). simpl.
  match goal with
  | |- context [run _ ?w1] => set (w1' := w1)
  end.
  assert (is_admin w1') as Ha1 by exact Ha.
  assert (BlogPost_query_get (db w1') post_id = Some (edited (posted req) post))
    as Hget1.
  { unfold BlogPost_query_get in *. subst w1'; simpl.
    now rewrite find_update_post, Hget. }
  assert (title_taken_by_other (db w1') post_id
            (CreatePostForm.title (posted req)) = false) as Htitle1.
  { subst w1'; simpl. now rewrite title_taken_by_other_update. }
  rewrite (edit_post_commit post_id Ha1 Hget1 Hv Htitle1). subst w1'; simpl.
  split; trivial. now rewrite update_post_twice.
Qed.

(** ** Deleting posts *)

(** Deleting an existing post as the administrator removes that post and
    no other, and deletes no comment: the Comment table keeps its length,
    and the comments that named the post are left naming none. *)
Theorem delete_post_orphans_comments (post_id : nat) (w : World)
  (post : BlogPost.t) :
  is_admin w ->
  BlogPost_query_get (db w) post_id = Some post ->
  let result := run (delete_post post_id) w in
  fst result = Ok (Redirect ep_get_all_posts)
  /\ BlogPost_query_get (db (snd result)) post_id = None
  /\ (forall p, In p (blog_posts (db w)) -> BlogPost.id p <> post_id ->
                In p (blog_posts (db (snd result))))
  /\ List.length (comments (db (snd result))) = List.length (comments (db w))
  /\ (forall c, In c (comments (db (snd result))) ->
                Comment.post_id c <> Some post_id).
Proof.
  intros Ha Hget result.
  assert (is_admin (request_context w)) as Ha' by exact Ha.
  destruct (query_get_id _ _ Hget) as [_ Hid].
  assert (result
          = (Ok (Redirect ep_get_all_posts),
             mkWorld
               (mkStore (users (db w))
                  (filter (fun p => negb (BlogPost.id p =? post_id))
                     (blog_posts (db w)))
                  (map (orphan post_id) (comments (db w))))
               (session_user_id w) (flashes w) []
               [BlogPostQueryGet post_id; SessionCommit])) as ->.
  { subst result. unfold run, delete_post. rewrite (admin_only_passes _ _ Ha').
    autounfold with blog; simpl. rewrite Hget; simpl. now rewrite Hid. }
  simpl. repeat split.
  - unfold BlogPost_query_get; simpl.
    destruct (find _ (filter _ _)) as [p|] eqn:F; trivial.
    apply find_some in F. destruct F as [Hin Hp].
    apply filter_In in Hin. destruct Hin as [_ Hn]. now rewrite Hp in Hn.
  - intros p Hin Hne. apply filter_In. split; trivial.
    now apply negb_true_iff, Nat.eqb_neq.
  - now rewrite length_map.
  - intros c Hin. apply in_map_iff in Hin. destruct Hin as [c0 [<- _]].
    unfold orphan. destruct (Comment.post_id c0) as [q|] eqn:Hq.
    + destruct (q =? post_id) eqn:E; simpl; [discriminate|].
      rewrite Hq. apply Nat.eqb_neq in E. congruence.
    + rewrite Hq. discriminate.
Qed.

(** ** Commenting *)

(** A valid comment by a logged-in user on an existing post appends
    exactly one Comment row, with the submitted text, that user as author
    and that post as parent, and renders the post page again (a page, not
    a redirect). *)
Theorem comment_on_existing_post (post_id : nat) (req : Request CommentForm.t)
  (w : World) (u : User.t) (post : BlogPost.t) :
  valid_submission req ->
  identity w = Some u ->
  BlogPost_query_get (db w) post_id = Some post ->
  run (show_post post_id req) w
  = (Ok (Page "post.html"
           [("post", VPost (Some post));
            ("form", VForm (CommentFormView (new_form "CommentForm" req None)))]),
     mkWorld
       (mkStore (users (db w)) (blog_posts (db w))
          (comments (db w)
           ++ [Comment.make (next_id (map Comment.id (comments (db w))))
                 (CommentForm.body (posted req)) (Some (User.id u))
                 (Some post_id)]))
       (session_user_id w) (flashes w) []
       [BlogPostQueryGet post_id; FormValidate "CommentForm"; SessionCommit]).
Proof.
  intros (Hm & Hc & Hv) Hu Hget.
  destruct (query_get_id _ _ Hget) as [_ Hid].
  destruct req as [m d c]; simpl in *; subst m c.
  unfold run, show_post; autounfold with blog; simpl.
  rewrite Hget; simpl. rewrite Hv; simpl.
  change (identity _) with (identity w). rewrite Hu; simpl. now rewrite Hid.
Qed.

Lemma next_id_snoc (ids : list nat) :
  next_id (ids ++ [next_id ids]) = S (next_id ids).
Proof.
  unfold next_id. f_equal.
  assert (forall x, fold_right Nat.max 0 (ids ++ [x])
                    = Nat.max (fold_right Nat.max 0 ids) x) as H.
  { intros x. induction ids as [|y ids IH]; simpl; [lia|]. rewrite IH. lia. }
  rewrite H. lia.
Qed.

(** The comment handler answers a successful submission with the page and
    not with a redirect, and keeps no record of what it has stored: the
    same submission sent again is stored again, under the next key. *)
Theorem comment_resubmitted (post_id : nat) (req : Request CommentForm.t)
  (w : World) (u : User.t) (post : BlogPost.t) :
  valid_submission req ->
  identity w = Some u ->
  BlogPost_query_get (db w) post_id = Some post ->
  let n := next_id (map Comment.id (comments (db w))) in
  let first := run (show_post post_id req) w in
  let second := run (show_post post_id req) (snd first) in
  comments (db (snd second))
  = comments (db w)
    ++ [Comment.make n (CommentForm.body (posted req)) (Some (User.id u))
          (Some post_id);
        Comment.make (S n) (CommentForm.body (posted req)) (Some (User.id u))
          (Some post_id)].
Proof.
  intros Hv Hu Hget n first second. subst second first.
  rewrite (@comment_on_existing_post post_id req w u post Hv Hu Hget). simpl.
  match goal with
  | |- context [run _ ?w1] => set (w1' := w1)
  end.
  assert (identity w1' = Some u) as Hu1 by exact Hu.
  assert (BlogPost_query_get (db w1') post_id = Some post) as Hget1 by exact Hget.
  rewrite (@comment_on_existing_post post_id req w1' u post Hv Hu1 Hget1).
  subst w1'. cbn [snd db comments]. rewrite map_app. cbn [map Comment.id].
  rewrite next_id_snoc. fold n. now rewrite <- app_assoc.
Qed.

(** ** Registering, then *)

Lemma register_commit (req : Request RegisterForm.t) (w : World) :
  valid_submission req ->
  (forall u, In u (users (db w))
             -> User.email u <> RegisterForm.email (posted req)) ->
  let new_user :=
    User.make (next_id (map User.id (users (db w))))
      (RegisterForm.email (posted req))
      (generate_password_hash (RegisterForm.password (posted req))
         "pbkdf2:sha256" 8 (urandom env))
      (RegisterForm.name (posted req)) in
  run (register generate_password_hash env req) w
  = (Ok (Redirect ep_get_all_posts),
     mkWorld (mkStore (users (db w) ++ [new_user]) (blog_posts (db w))
                (comments (db w)))
       (Some (User.id new_user)) (flashes w) []
       [FormValidate "RegisterForm";
        UserQueryFilterBy (Some (RegisterForm.email (posted req)));
        SessionCommit; LoginUser (User.id new_user)]).
Proof.
  intros (Hm & Hc & Hv) Hfresh new_user.
  pose proof (find_email_absent _ Hfresh) as Hnone.
  pose proof (email_taken_absent (db w) Hfresh) as Htaken.
  subst new_user. destruct req as [m d c]; simpl in *; subst m c.
  unfold run, register; autounfold with blog; simpl.
  rewrite Hv; simpl. rewrite Hnone; simpl. now rewrite Htaken.
Qed.

Lemma find_email_appended (us : list User.t) (u : User.t) :
  (forall x, In x us -> User.email x <> User.email u) ->
  find (fun x => String.eqb (User.email x) (User.email u)) (us ++ [u]) = Some u.
Proof.
  induction us as [|x us IH]; simpl; intros H.
  - now rewrite String.eqb_refl.
  - destruct (String.eqb (User.email x) (User.email u)) eqn:E.
    + apply String.eqb_eq in E. exfalso. apply (H x); auto.
    + apply IH. intros y Hy. apply H. now right.
Qed.

(** The user who registers into an empty User table receives key 1 and is
    therefore the administrator from that request on. *)
Theorem first_user_is_admin (req : Request RegisterForm.t) (w : World) :
  users (db w) = [] ->
  valid_submission req ->
  is_admin (snd (run (register generate_password_hash env req) w)).
Proof.
  intros Hempty Hv.
  assert (forall u, In u (users (db w))
                    -> User.email u <> RegisterForm.email (posted req)) as Hfresh.
  { rewrite Hempty. intros u []. }
  rewrite (@register_commit req w Hv Hfresh). rewrite Hempty. simpl.
  unfold is_admin, identity, load_user, User_query_get; simpl. eauto.
Qed.

(** Registration and login fit together: after a successful registration,
    a login submission with the same email and password, from any session
    on that store, binds the session to the new user, provided the
    verifier accepts the hash the hasher made of that password. *)
Theorem register_then_login (req : Request RegisterForm.t)
  (lreq : Request LoginForm.t) (w w' : World) :
  valid_submission req ->
  (forall u, In u (users (db w))
             -> User.email u <> RegisterForm.email (posted req)) ->
  check_password_hash
    (generate_password_hash (RegisterForm.password (posted req)) "pbkdf2:sha256" 8
       (urandom env))
    (RegisterForm.password (posted req)) = true ->
  db w' = db (snd (run (register generate_password_hash env req) w)) ->
  method lreq = POST ->
  LoginForm.email (posted lreq) = RegisterForm.email (posted req) ->
  LoginForm.password (posted lreq) = RegisterForm.password (posted req) ->
  let result := run (login check_password_hash lreq) w' in
  fst result = Ok (Redirect ep_get_all_posts)
  /\ session_user_id (snd result)
     = Some (next_id (map User.id (users (db w)))).
Proof.
  intros Hv Hfresh Hcheck Hdb Hm He Hp result. subst result.
  rewrite (@register_commit req w Hv Hfresh) in Hdb. simpl in Hdb.
  set (new_user :=
         User.make (next_id (map User.id (users (db w))))
           (RegisterForm.email (posted req))
           (generate_password_hash (RegisterForm.password (posted req))
              "pbkdf2:sha256" 8 (urandom env))
           (RegisterForm.name (posted req))) in *.
  assert (User_query_filter_by_email (db w') (Some (LoginForm.email (posted lreq)))
          = Some new_user) as Hfind.
  { unfold User_query_filter_by_email. rewrite Hdb, He. simpl.
    now apply (find_email_appended (users (db w)) new_user). }
  assert (check_password_hash (User.password new_user)
            (LoginForm.password (posted lreq)) = true) as Hok.
  { rewrite Hp. exact Hcheck. }
  rewrite (login_accepts_unvalidated check_password_hash lreq w' Hm Hfind Hok).
  split; reflexivity.
Qed.

(** A successful registration makes its own email a duplicate: the same
    submission sent again is answered with the redirect to the login page
    and adds no row. *)
Theorem register_twice (req : Request RegisterForm.t) (w : World) :
  valid_submission req ->
  (forall u, In u (users (db w))
             -> User.email u <> RegisterForm.email (posted req)) ->
  let first := run (register generate_password_hash env req) w in
  let second := run (register generate_password_hash env req) (snd first) in
  fst second = Ok (Redirect ep_login)
  /\ db (snd second) = db (snd first).
Proof.
  intros Hv Hfresh first second. subst second first.
  rewrite (@register_commit req w Hv Hfresh). simpl.
  set (new_user := User.make _ _ _ _).
  pose proof (find_email_appended (users (db w)) new_user Hfresh) as Hfind.
  destruct Hv as (Hm & Hc & Hv).
  destruct req as [m d c]; simpl in *; subst m c.
  unfold run, register; autounfold with blog; simpl.
  rewrite Hv; simpl. fold new_user. rewrite Hfind. simpl. split; reflexivity.
Qed.

End Further.

(** * The further properties on concrete data *)

Lemma reachable_unique_keys_witness :
  let serve :=
    @dispatch required_RegisterForm required_CommentForm required_CreatePostForm
      toy_generate_password_hash toy_check_password_hash sample_env in
  let w1 :=
    snd (run (serve (route_register
                       (mkRequest POST (RegisterForm.make "a@x.com" "pw" "Alice")
                          true)))
           initial_world) in
  let w2 :=
    snd (run (serve (route_new_post
                       (mkRequest POST
                          (CreatePostForm.make "T1" "S1" "http://x/i.png" "B1")
                          true)))
           w1) in
  let w3 :=
    snd (run (serve (route_post 1
                       (mkRequest POST (CommentForm.make "nice post") true)))
           w2) in
  unique_keys (db w3).
Proof.
  intros serve w1 w2 w3.
  apply (@reachable_unique_keys required_RegisterForm required_CommentForm
           required_CreatePostForm toy_generate_password_hash
           toy_check_password_hash w3).
  unfold w3, w2, w1, serve.
  apply reachable_request, reachable_request, reachable_request,
    reachable_initial.
Defined.

Lemma reachable_unique_columns_witness :
  let serve :=
    @dispatch required_RegisterForm required_CommentForm required_CreatePostForm
      toy_generate_password_hash toy_check_password_hash sample_env in
  let w1 :=
    snd (run (serve (route_register
                       (mkRequest POST (RegisterForm.make "a@x.com" "pw" "Alice")
                          true)))
           initial_world) in
  let w2 :=
    snd (run (serve (route_register
                       (mkRequest POST (RegisterForm.make "a@x.com" "pw2" "Al")
                          true)))
           w1) in
  users (db w2) = [alice] /\ unique_columns (db w2).
Proof.
  intros serve w1 w2. split; [reflexivity|].
  apply (@reachable_unique_columns required_RegisterForm required_CommentForm
           required_CreatePostForm toy_generate_password_hash
           toy_check_password_hash w2).
  unfold w2, w1, serve.
  apply reachable_request, reachable_request, reachable_initial.
Defined.

Lemma posts_need_admin_witness :
  let r := route_post 1 (mkRequest POST (CommentForm.make "me too") true) in
  let w := world_of sample_store (Some 2) in
  blog_posts
    (db (snd (run (@dispatch required_RegisterForm required_CommentForm
                     required_CreatePostForm toy_generate_password_hash
                     toy_check_password_hash sample_env r) w)))
  = [post1; post2].
Proof.
  apply (@posts_need_admin required_RegisterForm required_CommentForm
           required_CreatePostForm toy_generate_password_hash
           toy_check_password_hash sample_env
           (route_post 1 (mkRequest POST (CommentForm.make "me too") true))
           (world_of sample_store (Some 2))).
  right. exists bob. split; [reflexivity | simpl; lia].
Defined.

Lemma anonymous_adds_users_only_witness :
  let r := route_register
             (mkRequest POST (RegisterForm.make "c@x.com" "s3cret" "Carol") true) in
  let w := world_of sample_store None in
  let w' :=
    snd (run (@dispatch required_RegisterForm required_CommentForm
                required_CreatePostForm toy_generate_password_hash
                toy_check_password_hash sample_env r) w) in
  blog_posts (db w') = [post1; post2] /\ comments (db w') = comments sample_store.
Proof.
  apply (@anonymous_adds_users_only required_RegisterForm required_CommentForm
           required_CreatePostForm toy_generate_password_hash
           toy_check_password_hash sample_env
           (route_register
              (mkRequest POST (RegisterForm.make "c@x.com" "s3cret" "Carol") true))
           (world_of sample_store None)).
  reflexivity.
Defined.

Lemma get_requests_only_read_witness :
  let r := route_edit_post 2
             (mkRequest GET (CreatePostForm.make "" "" "" "") true) in
  let w := world_of sample_store (Some 1) in
  same_state w
    (snd (run (@dispatch required_RegisterForm required_CommentForm
                 required_CreatePostForm toy_generate_password_hash
                 toy_check_password_hash sample_env r) w)).
Proof.
  apply (@get_requests_only_read required_RegisterForm required_CommentForm
           required_CreatePostForm toy_generate_password_hash
           toy_check_password_hash sample_env
           (route_edit_post 2 (mkRequest GET (CreatePostForm.make "" "" "" "") true))
           (world_of sample_store (Some 1))).
  reflexivity.
Defined.

Lemma logout_clears_session_witness :
  run (logout tt) (world_of sample_store (Some 2))
  = (Ok (Redirect ep_get_all_posts), mkWorld sample_store None [] [] [LogoutUser]).
Proof.
  apply (@logout_clears_session (world_of sample_store (Some 2)) bob).
  reflexivity.
Defined.

Lemma logout_requires_login_witness :
  run (logout tt) (world_of sample_store None)
  = (Ok (Abort 401), untouched (world_of sample_store None) [] []).
Proof.
  apply (@logout_requires_login (world_of sample_store None)). reflexivity.
Defined.

Lemma login_binds_session_witness :
  let req := mkRequest POST (LoginForm.make "a@x.com" "pw") true in
  let result := run (login toy_check_password_hash req) (world_of sample_store None) in
  fst result = Ok (Redirect ep_get_all_posts)
  /\ db (snd result) = sample_store
  /\ flashes (snd result) = []
  /\ session_user_id (snd result) = Some 1
  /\ identity (snd result) = Some alice.
Proof.
  apply (@login_binds_session toy_check_password_hash
           (mkRequest POST (LoginForm.make "a@x.com" "pw") true)
           (world_of sample_store None) alice).
  - reflexivity.
  - simpl. repeat (constructor; [simpl; intuition discriminate|]). constructor.
  - reflexivity.
  - reflexivity.
Defined.

Lemma login_unknown_email_witness :
  let req := mkRequest POST (LoginForm.make "z@x.com" "pw") true in
  let w := world_of sample_store None in
  run (login toy_check_password_hash req) w
  = (Ok (Page "login.html"
           [("form", VForm (LoginFormView (new_form "LoginForm" req None)));
            ("bg_img_url", VUrl (url_for_static "img/login_bg_img.jpg"))]),
     untouched w [] [UserQueryFilterBy (Some "z@x.com")]).
Proof.
  apply (@login_unknown_email toy_check_password_hash
           (mkRequest POST (LoginForm.make "z@x.com" "pw") true)
           (world_of sample_store None)).
  - reflexivity.
  - simpl. intros u [<- | [<- | []]]; discriminate.
Defined.

Lemma add_new_post_creates_witness :
  let req := mkRequest POST
               (CreatePostForm.make "T3" "S3" "http://x/k.png" "B3") true in
  let w := world_of sample_store (Some 1) in
  let new_post :=
    BlogPost.make 3 (Some 1) "T3" "S3" "July 04, 2021" "B3" "http://x/k.png" in
  let result := run (@add_new_post required_CreatePostForm sample_env req) w in
  fst result = Ok (Redirect ep_get_all_posts)
  /\ db (snd result)
     = mkStore [alice; bob] [post1; post2; new_post] (comments sample_store)
  /\ session_user_id (snd result) = Some 1
  /\ BlogPost_query_get (db (snd result)) 3 = Some new_post.
Proof.
  apply (@add_new_post_creates required_CreatePostForm sample_env
           (mkRequest POST (CreatePostForm.make "T3" "S3" "http://x/k.png" "B3")
              true)
           (world_of sample_store (Some 1)) alice).
  - reflexivity.
  - reflexivity.
  - repeat split.
  - simpl. intros p [<- | [<- | []]]; discriminate.
Defined.

Lemma add_new_post_duplicate_title_witness :
  let req := mkRequest POST
               (CreatePostForm.make "T1" "S3" "http://x/k.png" "B3") true in
  let w := world_of sample_store (Some 1) in
  run (@add_new_post required_CreatePostForm sample_env req) w
  = (Raise IntegrityError,
     untouched w [] [FormValidate "CreatePostForm"; SessionCommit]).
Proof.
  apply (@add_new_post_duplicate_title required_CreatePostForm sample_env
           (mkRequest POST (CreatePostForm.make "T1" "S3" "http://x/k.png" "B3")
              true)
           (world_of sample_store (Some 1))).
  - exists alice. split; reflexivity.
  - repeat split.
  - exists post1. split; [simpl; auto | reflexivity].
Defined.

Lemma edit_missing_post_raises_witness :
  let req := mkRequest GET (CreatePostForm.make "" "" "" "") true in
  let w := world_of sample_store (Some 1) in
  run (@edit_post required_CreatePostForm (9, req)) w
  = (Raise AttributeError, untouched w [] [BlogPostQueryGet 9]).
Proof.
  apply (@edit_missing_post_raises required_CreatePostForm 9
           (mkRequest GET (CreatePostForm.make "" "" "" "") true)
           (world_of sample_store (Some 1))).
  - exists alice. split; reflexivity.
  - reflexivity.
  - reflexivity.
Defined.

Lemma edit_post_get_prefills_witness :
  let req := mkRequest GET (CreatePostForm.make "" "" "" "") true in
  let w := world_of sample_store (Some 1) in
  run (@edit_post required_CreatePostForm (2, req)) w
  = (Ok (Page "make-post.html"
           [("form",
             VForm (CreatePostFormView
                      (mkForm "CreatePostForm" false true
                         (Some (CreatePostForm.make "T2" "S2" "http://x/j.png"
                                  "B2")))))]),
     untouched w [] [BlogPostQueryGet 2; FormValidate "CreatePostForm"]).
Proof.
  apply (@edit_post_get_prefills required_CreatePostForm 2
           (mkRequest GET (CreatePostForm.make "" "" "" "") true)
           (world_of sample_store (Some 1)) post2).
  - exists alice. split; reflexivity.
  - reflexivity.
  - reflexivity.
Defined.

Lemma edit_then_lookup_witness :
  let req := mkRequest POST
               (CreatePostForm.make "T2 revised" "S2b" "http://x/n.png" "B2b")
               true in
  let w := world_of sample_store (Some 1) in
  BlogPost_query_get
    (db (snd (run (@edit_post required_CreatePostForm (2, req)) w))) 2
  = Some (BlogPost.make 2 (Some 1) "T2 revised" "S2b" "July 05, 2021" "B2b"
            "http://x/n.png").
Proof.
  apply (@edit_then_lookup required_CreatePostForm 2
           (mkRequest POST
              (CreatePostForm.make "T2 revised" "S2b" "http://x/n.png" "B2b")
              true)
           (world_of sample_store (Some 1)) post2).
  - exists alice. split; reflexivity.
  - reflexivity.
  - repeat split.
  - simpl. intros p [<- | [<- | []]] H; simpl in *; [discriminate | lia].
Defined.

Lemma edit_post_twice_witness :
  let req := mkRequest POST
               (CreatePostForm.make "T2 revised" "S2b" "http://x/n.png" "B2b")
               true in
  let w := world_of sample_store (Some 1) in
  let first := run (@edit_post required_CreatePostForm (2, req)) w in
  let second := run (@edit_post required_CreatePostForm (2, req)) (snd first) in
  fst second = Ok (Redirect (ep_show_post 2))
  /\ db (snd second) = db (snd first).
Proof.
  apply (@edit_post_twice required_CreatePostForm 2
           (mkRequest POST
              (CreatePostForm.make "T2 revised" "S2b" "http://x/n.png" "B2b")
              true)
           (world_of sample_store (Some 1)) post2).
  - exists alice. split; reflexivity.
  - reflexivity.
  - repeat split.
  - simpl. intros p [<- | [<- | []]] H; simpl in *; [discriminate | lia].
Defined.

Lemma delete_post_orphans_comments_witness :
  let w := world_of sample_store (Some 1) in
  let result := run (delete_post 1) w in
  comments (db (snd result)) = [Comment.make 1 "nice post" (Some 2) None]
  /\ (fst result = Ok (Redirect ep_get_all_posts)
      /\ BlogPost_query_get (db (snd result)) 1 = None
      /\ (forall p, In p (blog_posts (db w)) -> BlogPost.id p <> 1 ->
                    In p (blog_posts (db (snd result))))
      /\ List.length (comments (db (snd result))) = List.length (comments (db w))
      /\ (forall c, In c (comments (db (snd result))) ->
                    Comment.post_id c <> Some 1)).
Proof.
  split; [reflexivity|].
  apply (@delete_post_orphans_comments 1 (world_of sample_store (Some 1)) post1).
  - exists alice. split; reflexivity.
  - reflexivity.
Defined.

Lemma comment_on_existing_post_witness :
  let req := mkRequest POST (CommentForm.make "me too") true in
  let w := world_of sample_store (Some 2) in
  run (@show_post required_CommentForm 2 req) w
  = (Ok (Page "post.html"
           [("post", VPost (Some post2));
            ("form", VForm (CommentFormView (new_form "CommentForm" req None)))]),
     mkWorld
       (mkStore [alice; bob] [post1; post2]
          [Comment.make 1 "nice post" (Some 2) (Some 1);
           Comment.make 2 "me too" (Some 2) (Some 2)])
       (Some 2) [] []
       [BlogPostQueryGet 2; FormValidate "CommentForm"; SessionCommit]).
Proof.
  apply (@comment_on_existing_post required_CommentForm 2
           (mkRequest POST (CommentForm.make "me too") true)
           (world_of sample_store (Some 2)) bob post2).
  - repeat split.
  - reflexivity.
  - reflexivity.
Defined.

Lemma comment_resubmitted_witness :
  let req := mkRequest POST (CommentForm.make "me too") true in
  let w := world_of sample_store (Some 2) in
  let first := run (@show_post required_CommentForm 2 req) w in
  let second := run (@show_post required_CommentForm 2 req) (snd first) in
  comments (db (snd second))
  = [Comment.make 1 "nice post" (Some 2) (Some 1);
     Comment.make 2 "me too" (Some 2) (Some 2);
     Comment.make 3 "me too" (Some 2) (Some 2)].
Proof.
  apply (@comment_resubmitted required_CommentForm 2
           (mkRequest POST (CommentForm.make "me too") true)
           (world_of sample_store (Some 2)) bob post2).
  - repeat split.
  - reflexivity.
  - reflexivity.
Defined.

Lemma first_user_is_admin_witness :
  let req := mkRequest POST (RegisterForm.make "a@x.com" "pw" "Alice") true in
  is_admin
    (snd (run (@register required_RegisterForm toy_generate_password_hash
                 sample_env req) initial_world)).
Proof.
  apply (@first_user_is_admin required_RegisterForm toy_generate_password_hash
           sample_env
           (mkRequest POST (RegisterForm.make "a@x.com" "pw" "Alice") true)
           initial_world).
  - reflexivity.
  - repeat split.
Defined.

Lemma register_then_login_witness :
  let req := mkRequest POST (RegisterForm.make "c@x.com" "s3cret" "Carol") true in
  let lreq := mkRequest POST (LoginForm.make "c@x.com" "s3cret") true in
  let w := world_of sample_store None in
  let w' :=
    world_of
      (db (snd (run (@register required_RegisterForm toy_generate_password_hash
                       sample_env req) w)))
      None in
  let result := run (login toy_check_password_hash lreq) w' in
  fst result = Ok (Redirect ep_get_all_posts)
  /\ session_user_id (snd result) = Some 3.
Proof.
  intros req lreq w w'.
  apply (@register_then_login required_RegisterForm toy_generate_password_hash
           toy_check_password_hash sample_env req lreq w w').
  - repeat split.
  - simpl. intros u [<- | [<- | []]]; discriminate.
  - reflexivity.
  - reflexivity.
  - reflexivity.
  - reflexivity.
  - reflexivity.
Defined.

Lemma register_twice_witness :
  let req := mkRequest POST (RegisterForm.make "c@x.com" "s3cret" "Carol") true in
  let w := world_of sample_store None in
  let first :=
    run (@register required_RegisterForm toy_generate_password_hash sample_env req)
      w in
  let second :=
    run (@register required_RegisterForm toy_generate_password_hash sample_env req)
      (snd first) in
  fst second = Ok (Redirect ep_login) /\ db (snd second) = db (snd first).
Proof.
  apply (@register_twice required_RegisterForm toy_generate_password_hash
           sample_env
           (mkRequest POST (RegisterForm.make "c@x.com" "s3cret" "Carol") true)
           (world_of sample_store None)).
  - repeat split.
  - simpl. intros u [<- | [<- | []]]; discriminate.
Defined.
